(** * CpWER: component extraction and accumulation of
      [pyannote/metrics/meeteval_cpwer.py]

    A shallow embedding of the class [CpWER]: [compute_components],
    [compute_metric] and [__call__], with the Python objects they touch.

    - A Python [float] is an IEEE-754 binary64 number: [spec_float] with
      precision 53 and maximal exponent 1024, with the Standard Library's
      executable operations ([SFadd], [SFdiv], [SFcompare]).
    - A Python [dict] with string keys is a [gmap string _]; subscripting a
      missing key raises [KeyError].
    - Exceptions are an error result; code that mutates [self] or emits a
      warning runs in a state-and-error monad whose state survives a raise,
      as the mutations of a Python object do.
    - What the class imports from other packages (the file system, the text
      normalizer, meeteval's aligner) is a record of functions, [World]. *)

From Stdlib Require Import ZArith String Ascii List Bool.
From Stdlib Require Import Floats.SpecFloat.
From stdpp Require Import gmap strings list fin_maps.

#[local] Set Warnings "-register-all".

(** ** Python floats *)

Module Float.

Definition prec : Z := 53.
Definition emax : Z := 1024.

Definition add : spec_float → spec_float → spec_float := SFadd prec emax.
Definition div : spec_float → spec_float → spec_float := SFdiv prec emax.
(** [x == y] and [x < y] on floats. *)
Definition eqb : spec_float → spec_float → bool := SFeqb.
Definition ltb : spec_float → spec_float → bool := SFltb.

(** The nearest float of an integer (ties to even); an infinity when the
    integer is out of range. *)
Definition of_Z (n : Z) : spec_float := binary_normalize prec emax n 0 false.

(** The literals [0.0] and [1.0]. *)
Definition zero : spec_float := S754_zero false.
Definition one : spec_float := S754_finite false 4503599627370496 (-52).

(** A value that [0.0 + x] leaves as it is: every float but [-0.0]. *)
Definition plain (v : spec_float) : Prop := add zero v = v.

End Float.

(** ** Exceptions and results *)

Inductive exn : Type :=
| IndexError
| TypeError
| KeyError (key : string)
| OverflowError
| Raised (name : string).      (* an exception of an imported package *)

Definition result (A : Type) : Type := exn + A.

Definition raise {A} (e : exn) : result A := inl e.

#[global] Instance result_ret : MRet result := λ A x, inr x.
#[global] Instance result_bind : MBind result := λ A B f r,
  match r with
  | inl e => inl e
  | inr x => f x
  end.

(** [[f(x) for x in xs]] when [f] may raise: stops at the first raise. *)
Fixpoint mapM {A B} (f : A → result B) (xs : list A) : result (list B) :=
  match xs with
  | [] => mret []
  | x :: rest => y ← f x; ys ← mapM f rest; mret (y :: ys)
  end.

(** ** Python values that reach the metric as a hypothesis *)

Inductive pyval : Type :=
| PyStr (s : string)            (* str *)
| PyList (items : list pyval)   (* list or tuple *)
| PyObj (id : nat).             (* any other object; here: neither
                                   subscriptable nor iterable *)

Definition isinstance_str (v : pyval) : bool :=
  match v with
  | PyStr _ => true
  | _ => false
  end.

(** [v[i]] for a non-negative index. *)
Definition getitem (v : pyval) (i : nat) : result pyval :=
  match v with
  | PyStr s =>
      match String.get i s with
      | Some c => mret (PyStr (String c EmptyString))
      | None => raise IndexError
      end
  | PyList items =>
      match items !! i with
      | Some x => mret x
      | None => raise IndexError
      end
  | PyObj _ => raise TypeError
  end.

(** The elements [for hyp in v] visits. *)
Definition iter (v : pyval) : result (list pyval) :=
  match v with
  | PyStr s => mret ((λ c, PyStr (String c EmptyString)) <$> list_ascii_of_string s)
  | PyList items => mret items
  | PyObj _ => raise TypeError
  end.

(** [d[key]] on a dict. *)
Definition dict_getitem {V} (d : gmap string V) (key : string) : result V :=
  match d !! key with
  | Some v => mret v
  | None => raise (KeyError key)
  end.

(** [file.startswith(uri)]; [uri] is [None] for an annotation without uri. *)
Definition startswith (file : string) (uri : option string) : result bool :=
  match uri with
  | Some u => mret (String.prefix u file)
  | None => raise TypeError
  end.

(** [x + n] for a float [x] and an int [n]: the int is converted first,
    which raises when it is too large. *)
Definition float_of_int (n : Z) : result spec_float :=
  match Float.of_Z n with
  | S754_infinity _ => raise OverflowError
  | f => mret f
  end.

Definition float_add_int (x : spec_float) (n : Z) : result spec_float :=
  f ← float_of_int n; mret (Float.add x f).

(** ** The objects of other packages *)

(** [pyannote.core.Annotation]: only its [_uri] is read. *)
Record Annotation : Type := { _uri : option string }.

(** The result object of [meeteval]'s [cp_word_error_rate]: word counts. *)
Module ErrorRate.
Record t : Type := {
  length : Z;
  substitutions : Z;
  deletions : Z;
  insertions : Z
}.
End ErrorRate.

Record World : Type := {
  listdir : string → result (list string);          (* os.listdir *)
  path_join : string → string → string;             (* os.path.join *)
  read_file : string → result string;               (* open(...).read() *)
  strip : string → string;                          (* str.strip *)
  normalizer : pyval → result string;               (* EnglishTextNormalizer() *)
  cp_word_error_rate : list string → list string → result ErrorRate.t
}.

(** ** The metric object *)

Record CpWER : Type := {
  reference_dir : string;
  accumulated_ : gmap string spec_float;
  results_ : list (option string * gmap string spec_float)
}.

Definition metric_name : string := "CpWER".

Definition metric_components : list string :=
  ["length"; "substitutions"; "deletions"; "insertions"].

(** Modelled from the spec: [BaseMetric.__init__] is not under src/; it
    stores what [metric_name()] and [metric_components()] return as
    [self.metric_name_] and [self.components_] (the declared component
    names). *)
Definition metric_name_ : string := metric_name.
Definition components_ : list string := metric_components.

(** Modelled from the spec: [BaseMetric.reset] is not under src/; the
    running totals are zero for every declared component name and the
    history is empty. *)
Definition reset (self : CpWER) : CpWER :=
  {| reference_dir := reference_dir self;
     accumulated_ := list_to_map ((λ name, (name, Float.zero)) <$> components_);
     results_ := [] |}.

Definition init (dir : string) : CpWER :=
  reset {| reference_dir := dir; accumulated_ := ∅; results_ := [] |}.

(** ** compute_components *)

(** The dict literal of lines 105-110. *)
Definition components_dict (total_length total_subs total_dels total_ins : spec_float)
  : gmap string spec_float :=
  <["length" := total_length]>
  (<["substitutions" := total_subs]>
   (<["deletions" := total_dels]>
    (<["insertions" := total_ins]> ∅))).

Section Components.

Variable W : World.

(** The list comprehension of lines 74-76. *)
Fixpoint references_file_paths (dir : string) (uri : option string)
         (files : list string) : result (list string) :=
  match files with
  | [] => mret []
  | file :: rest =>
      keep ← startswith file uri;
      paths ← references_file_paths dir uri rest;
      mret (if keep : bool then path_join W dir file :: paths else paths)
  end.

(** The body of the loop of lines 78-80. *)
Definition read_reference (reference_file_path : string) : result string :=
  content ← read_file W reference_file_path;
  normalizer W (PyStr (strip W content)).

(** Lines 95-110: every total starts at [0.0] and the aligner's count is
    added to it. *)
Definition components_of (cpwer : ErrorRate.t) : result (gmap string spec_float) :=
  total_length ← float_add_int Float.zero (ErrorRate.length cpwer);
  total_subs ← float_add_int Float.zero (ErrorRate.substitutions cpwer);
  total_dels ← float_add_int Float.zero (ErrorRate.deletions cpwer);
  total_ins ← float_add_int Float.zero (ErrorRate.insertions cpwer);
  mret (components_dict total_length total_subs total_dels total_ins).

(** Lines 88-93: a bare string becomes a one-element list, then every
    element is normalized. *)
Definition normalize_hypothesis (asr_hypothesis : pyval) : result (list string) :=
  let asr_hypothesis :=
    if isinstance_str asr_hypothesis then PyList [asr_hypothesis]
    else asr_hypothesis in
  hyps ← iter asr_hypothesis;
  mapM (normalizer W) hyps.

Definition compute_components (self : CpWER) (reference : Annotation)
           (hypothesis : pyval) : result (gmap string spec_float) :=
  asr_hypothesis ← getitem hypothesis 1;
  let uri := _uri reference in
  files ← listdir W (reference_dir self);
  paths ← references_file_paths (reference_dir self) uri files;
  reference_text ← mapM read_reference paths;
  (* lines 83-86: reference_text is a list, it is kept as it is *)
  asr_hypothesis ← normalize_hypothesis asr_hypothesis;
  cpwer ← cp_word_error_rate W reference_text asr_hypothesis;
  components_of cpwer.

End Components.

(** ** State: the metric object and the warnings emitted so far *)

Record heap : Type := {
  obj : CpWER;
  warned : list string
}.

Definition M (A : Type) : Type := heap → result A * heap.

#[global] Instance M_ret : MRet M := λ A x h, (inr x, h).
#[global] Instance M_bind : MBind M := λ A B f m h,
  match m h with
  | (inl e, h') => (inl e, h')
  | (inr x, h') => f x h'
  end.

Definition lift {A} (r : result A) : M A := λ h, (r, h).

Definition get_self : M CpWER := λ h, (inr (obj h), h).

(** The state with one more warning, with one more history entry, and with
    the running totals replaced. *)
Definition with_warning (h : heap) (message : string) : heap :=
  {| obj := obj h; warned := warned h ++ [message] |}.

Definition appended (h : heap) (entry : option string * gmap string spec_float) : heap :=
  {| obj := {| reference_dir := reference_dir (obj h);
               accumulated_ := accumulated_ (obj h);
               results_ := results_ (obj h) ++ [entry] |};
     warned := warned h |}.

Definition with_totals (h : heap) (totals : gmap string spec_float) : heap :=
  {| obj := {| reference_dir := reference_dir (obj h);
               accumulated_ := totals;
               results_ := results_ (obj h) |};
     warned := warned h |}.

(** [warnings.warn(message)] under the default filters: the message is
    reported and execution goes on. *)
Definition warn (message : string) : M unit := λ h,
  (inr tt, with_warning h message).

(** [self.results_.append(entry)] *)
Definition results_append (entry : option string * gmap string spec_float) : M unit :=
  λ h, (inr tt, appended h entry).

(** [self.accumulated_[name]] and [self.accumulated_[name] = value] *)
Definition accumulated_get (name : string) : M spec_float := λ h,
  (dict_getitem (accumulated_ (obj h)) name, h).

Definition accumulated_set (name : string) (value : spec_float) : M unit := λ h,
  (inr tt, with_totals h (<[name := value]> (accumulated_ (obj h)))).

(** ** compute_metric *)

Definition zero_length_message : string :=
  "Denominator (length) is zero while numerator is non-zero. Returning CpWER as 1.0.".

(** The division of the last branch is only reached with a denominator
    that does not compare equal to zero, where Python's [/] on floats is
    the IEEE division. *)
Definition compute_metric (components : gmap string spec_float) : M spec_float :=
  s ← lift (dict_getitem components "substitutions");
  d ← lift (dict_getitem components "deletions");
  i ← lift (dict_getitem components "insertions");
  let numerator := Float.add (Float.add s d) i in
  denominator ← lift (dict_getitem components "length");
  if Float.eqb denominator Float.zero then
    if Float.eqb numerator Float.zero then mret Float.zero
    else warn zero_length_message;; mret Float.one
  else mret (Float.div numerator denominator).

(** ** __call__ *)

Inductive retval : Type :=
| Value (value : spec_float)                       (* detailed=False *)
| Detailed (components : gmap string spec_float).  (* detailed=True *)

(** Equality of results and states is decidable, so that a closed equation
    between them can be settled by evaluating the decision. *)
#[global] Instance spec_float_eq_dec : EqDecision spec_float.
Proof. solve_decision. Defined.

#[global] Instance exn_eq_dec : EqDecision exn.
Proof. solve_decision. Defined.

#[global] Instance result_eq_dec {A} `{EqDecision A} : EqDecision (result A).
Proof. unfold result. apply _. Defined.

#[global] Instance retval_eq_dec : EqDecision retval.
Proof. solve_decision. Defined.

#[global] Instance CpWER_eq_dec : EqDecision CpWER.
Proof. solve_decision. Defined.

#[global] Instance heap_eq_dec : EqDecision heap.
Proof. solve_decision. Defined.

(** The loop of lines 174-175. [a[k] += b[k]] reads [a[k]], then [b[k]],
    and stores the sum. *)
Fixpoint accumulate (names : list string) (components : gmap string spec_float)
  : M unit :=
  match names with
  | [] => mret tt
  | name :: rest =>
      a ← accumulated_get name;
      c ← lift (dict_getitem components name);
      accumulated_set name (Float.add a c);;
      accumulate rest components
  end.

Section Call.

Variable W : World.

Definition __call__ (reference : Annotation) (hypothesis : pyval)
           (detailed : bool) (uri : option string) : M retval :=
  self ← get_self;
  components ← lift (compute_components W self reference hypothesis);
  value ← compute_metric components;
  let components := <[metric_name_ := value]> components in
  let uri := _uri reference in
  results_append (uri, components);;
  accumulate components_ components;;
  if detailed then mret (Detailed components)
  else value ← lift (dict_getitem components metric_name_); mret (Value value).

End Call.

(** ** An evaluation run *)

Record sample : Type := {
  reference : Annotation;
  hypothesis : pyval;
  detailed : bool;
  uri : option string
}.

Definition succeeded {A} (r : result A) : bool :=
  match r with
  | inr _ => true
  | inl _ => false
  end.

(** The caller calls the metric on every sample in turn, and goes on with
    the next sample after a call that raises. *)
Fixpoint evaluate (W : World) (samples : list sample) (h : heap)
  : list (result retval) * heap :=
  match samples with
  | [] => ([], h)
  | x :: rest =>
      let (r, h1) := __call__ W (reference x) (hypothesis x) (detailed x) (uri x) h in
      let (rs, h2) := evaluate W rest h1 in
      (r :: rs, h2)
  end.

(** The history entry of a sample: its identifier and its components with
    the metric value stored under the metric's name; none when the
    component computation raises. *)
Definition history_entry (W : World) (self : CpWER) (x : sample)
  : option (option string * gmap string spec_float) :=
  match compute_components W self (reference x) (hypothesis x) with
  | inl _ => None
  | inr c =>
      match compute_metric c {| obj := self; warned := [] |} with
      | (inr v, _) => Some (_uri (reference x), <[metric_name_ := v]> c)
      | (inl _, _) => None
      end
  end.

(** The components [{length: l, substitutions: s, deletions: d,
    insertions: i}] of integer counts. *)
Definition counts (l s d i : Z) : gmap string spec_float :=
  components_dict (Float.of_Z l) (Float.of_Z s) (Float.of_Z d) (Float.of_Z i).

(** The state of a metric object that [reset] made and [__call__] updated:
    a running total for every declared component name. *)
Definition wf (self : CpWER) : Prop :=
  ∀ name, name ∈ components_ → is_Some (accumulated_ self !! name).

(** [totals'] is [totals] with the sample's value added to every declared
    component, and nothing else changed. *)
Definition folded_into (totals c totals' : gmap string spec_float) : Prop :=
  (∀ name, name ∈ components_ →
     ∃ a x, totals !! name = Some a ∧ c !! name = Some x
            ∧ totals' !! name = Some (Float.add a x))
  ∧ (∀ name, name ∉ components_ → totals' !! name = totals !! name).

(** ** Auxiliary notions for the properties below *)

(** The first key that [compute_metric] finds missing: it reads
    "substitutions", "deletions" and "insertions" for the numerator, then
    "length" (lines 126-127). *)
Definition first_missing (components : gmap string spec_float) : option string :=
  List.find (λ key, bool_decide (components !! key = None))
            ["substitutions"; "deletions"; "insertions"; "length"].

(** The float sum, from [0.0] and in history order, of the values logged
    under [name]; none when an entry has no such field. *)
Definition history_total (name : string)
    (entries : list (option string * gmap string spec_float)) : option spec_float :=
  foldl (λ acc entry, a ← acc; x ← entry.2 !! name; Some (Float.add a x))
        (Some Float.zero) entries.

(** The running totals agree with the history. *)
Definition consistent (self : CpWER) : Prop :=
  ∀ name, name ∈ components_ →
    ∃ a, accumulated_ self !! name = Some a
         ∧ history_total name (results_ self) = Some a.

(** ** A small world to run the code in

    A directory [refs] with the reference files of three recordings and
    one file that cannot be read; a normalizer that accepts text only and
    leaves it as it is; an aligner stub that counts characters: the length
    is the size of the references, every hypothesis text is one
    substitution, and with no reference every hypothesis character is an
    insertion. *)
Module Toy.

Definition files : list (string * string) :=
  [("refs/A.words", "0123456789 "); ("refs/B.words", "b"); ("refs/C.words", "")].

Definition size (texts : list string) : Z :=
  Z.of_nat (foldr (λ t n, (String.length t + n)%nat) 0%nat texts).

Definition align (refs hyps : list string) : ErrorRate.t :=
  match refs with
  | [] => {| ErrorRate.length := 0; ErrorRate.substitutions := 0;
             ErrorRate.deletions := 0; ErrorRate.insertions := size hyps |}
  | _ => {| ErrorRate.length := size refs;
            ErrorRate.substitutions := Z.of_nat (List.length hyps);
            ErrorRate.deletions := 0; ErrorRate.insertions := 0 |}
  end.

Fixpoint rstrip (s : string) : string :=
  match s with
  | EmptyString => EmptyString
  | String c rest =>
      match rstrip rest with
      | EmptyString => if Ascii.eqb c " " then EmptyString else String c EmptyString
      | r => String c r
      end
  end.

Definition world : World :=
  {| listdir := λ dir,
       if String.eqb dir "refs"
       then inr ["A.words"; "B.words"; "C.words"; "D.words"]
       else inl (Raised "FileNotFoundError");
     path_join := λ dir file, dir +:+ "/" +:+ file;
     read_file := λ path,
       match list_to_map (M := gmap string string) files !! path with
       | Some content => inr content
       | None => inl (Raised "PermissionError")
       end;
     strip := rstrip;
     normalizer := λ v,
       match v with
       | PyStr s => inr s
       | _ => inl (Raised "AttributeError")
       end;
     cp_word_error_rate := λ refs hyps, inr (align refs hyps) |}.

Definition annotation (uri : string) : Annotation := {| _uri := Some uri |}.

(** A hypothesis as the code expects it: (diarization, asr_hypothesis, sources). *)
Definition triple (asr : pyval) : pyval := PyList [PyObj 0; asr; PyObj 1].

Definition start : heap := {| obj := init "refs"; warned := [] |}.

(** Recording A with hypothesis x: components (10, 1, 0, 0);
    recording B with hypothesis x: components (1, 1, 0, 0). *)
Definition sample_A : sample :=
  {| reference := annotation "A"; hypothesis := triple (PyStr "x");
     detailed := false; uri := None |}.
Definition sample_B : sample :=
  {| reference := annotation "B"; hypothesis := triple (PyStr "x");
     detailed := true; uri := None |}.
(** Recording D cannot be read; a hypothesis that is too short. *)
Definition sample_D : sample :=
  {| reference := annotation "D"; hypothesis := triple (PyStr "x");
     detailed := false; uri := None |}.
Definition sample_short : sample :=
  {| reference := annotation "A"; hypothesis := PyList [PyStr "x"];
     detailed := false; uri := None |}.

(** The state after one call on a sample. *)
Definition after (x : sample) (h : heap) : heap :=
  (__call__ world (reference x) (hypothesis x) (detailed x) (uri x) h).2.

End Toy.


(** * Properties *)

(** ** Floats *)

Lemma Float_positive_not_zero (x : spec_float) :
  Float.ltb Float.zero x = true → Float.eqb x Float.zero = false.
Proof.
  unfold Float.ltb, Float.eqb, SFltb, SFeqb, Float.zero.
  destruct x as [s | s | | s m e]; simpl; try discriminate;
    destruct s; simpl; intros; try discriminate; reflexivity.
Qed.

(** Adding the literal [0.0] on the left changes nothing the second time. *)
Lemma Float_add_zero_idem (x : spec_float) :
  Float.add Float.zero (Float.add Float.zero x) = Float.add Float.zero x.
Proof. destruct x as [[] | [] | | s m e]; reflexivity. Qed.

Example Float_one_of_Z : Float.of_Z 1 = Float.one.
Proof. reflexivity. Qed.

(** ** compute_metric *)

Section ComputeMetric.

Variable components : gmap string spec_float.
Variables l s d i : spec_float.
Hypothesis Hl : components !! "length" = Some l.
Hypothesis Hs : components !! "substitutions" = Some s.
Hypothesis Hd : components !! "deletions" = Some d.
Hypothesis Hi : components !! "insertions" = Some i.

Lemma compute_metric_unfold (h : heap) :
  compute_metric components h =
    let numerator := Float.add (Float.add s d) i in
    if Float.eqb l Float.zero then
      if Float.eqb numerator Float.zero then (inr Float.zero, h)
      else (inr Float.one, with_warning h zero_length_message)
    else (inr (Float.div numerator l), h).
Proof.
  unfold compute_metric, mbind, M_bind, lift, dict_getitem.
  rewrite Hs, Hd, Hi, Hl. simpl.
  destruct (Float.eqb l Float.zero); [|reflexivity].
  destruct (Float.eqb _ Float.zero); reflexivity.
Qed.

End ComputeMetric.

(** The value [compute_metric] returns depends on the four fields only,
    not on the state it runs in. *)
Lemma compute_metric_value_agree (c c' : gmap string spec_float) (h h' : heap) :
  (∀ name, name ∈ metric_components → c' !! name = c !! name) →
  (compute_metric c' h').1 = (compute_metric c h).1.
Proof.
  intros Hagree.
  assert (Hl : c' !! "length" = c !! "length")
    by (apply Hagree; unfold metric_components; set_solver).
  assert (Hs : c' !! "substitutions" = c !! "substitutions")
    by (apply Hagree; unfold metric_components; set_solver).
  assert (Hd : c' !! "deletions" = c !! "deletions")
    by (apply Hagree; unfold metric_components; set_solver).
  assert (Hi : c' !! "insertions" = c !! "insertions")
    by (apply Hagree; unfold metric_components; set_solver).
  unfold compute_metric, mbind, M_bind, lift, dict_getitem.
  rewrite Hs, Hd, Hi, Hl.
  destruct (c !! "substitutions") as [s|]; [|reflexivity].
  destruct (c !! "deletions") as [d|]; [|reflexivity].
  destruct (c !! "insertions") as [i|]; [|reflexivity].
  destruct (c !! "length") as [l|]; [|reflexivity].
  simpl.
  destruct (Float.eqb l Float.zero); [|reflexivity].
  destruct (Float.eqb _ Float.zero); reflexivity.
Qed.

(** C1. For a components mapping that has the four fields, with
    [length > 0], [compute_metric] returns exactly
    [(substitutions + deletions + insertions) / length] (float addition
    and division, left to right) and emits no warning; and the value is
    determined by the four fields: a call on a mapping with equal fields,
    in whatever state, returns the same value. *)
Theorem compute_metric_ratio
    (components : gmap string spec_float) (l s d i : spec_float) (h : heap) :
  components !! "length" = Some l →
  components !! "substitutions" = Some s →
  components !! "deletions" = Some d →
  components !! "insertions" = Some i →
  Float.ltb Float.zero l = true →
  compute_metric components h
    = (inr (Float.div (Float.add (Float.add s d) i) l), h)
  ∧ ∀ (components' : gmap string spec_float) (h' : heap),
      (∀ name, name ∈ metric_components → components' !! name = components !! name) →
      (compute_metric components' h').1 = (compute_metric components h).1.
Proof.
  intros Hl Hs Hd Hi Hpos. split.
  - rewrite (compute_metric_unfold _ _ _ _ _ Hl Hs Hd Hi). simpl.
    rewrite (Float_positive_not_zero _ Hpos). reflexivity.
  - intros c' h' Hagree. apply compute_metric_value_agree, Hagree.
Qed.

Lemma compute_metric_ratio_witness :
  compute_metric (counts 4 1 1 1) Toy.start
    = (inr (Float.div (Float.add (Float.add (Float.of_Z 1) (Float.of_Z 1)) (Float.of_Z 1))
                      (Float.of_Z 4)), Toy.start)
  ∧ ∀ (components' : gmap string spec_float) (h' : heap),
      (∀ name, name ∈ metric_components → components' !! name = counts 4 1 1 1 !! name) →
      (compute_metric components' h').1 = (compute_metric (counts 4 1 1 1) Toy.start).1.
Proof.
  apply (compute_metric_ratio (counts 4 1 1 1)); reflexivity.
Defined.

(** C2. With the four fields present and [length == 0]:
    a numerator equal to zero gives [0.0] and no warning; any other
    numerator gives [1.0], and the only effect is one warning added to
    those emitted so far: nothing is raised and the metric object is
    untouched. *)
Theorem compute_metric_zero_length
    (components : gmap string spec_float) (l s d i : spec_float) (h : heap) :
  components !! "length" = Some l →
  components !! "substitutions" = Some s →
  components !! "deletions" = Some d →
  components !! "insertions" = Some i →
  Float.eqb l Float.zero = true →
  (Float.eqb (Float.add (Float.add s d) i) Float.zero = true →
   compute_metric components h = (inr Float.zero, h))
  ∧ (Float.eqb (Float.add (Float.add s d) i) Float.zero = false →
     compute_metric components h
       = (inr Float.one, with_warning h zero_length_message)
     ∧ obj (with_warning h zero_length_message) = obj h
     ∧ warned (with_warning h zero_length_message)
         = warned h ++ [zero_length_message]).
Proof.
  intros Hl Hs Hd Hi Hzero.
  rewrite (compute_metric_unfold _ _ _ _ _ Hl Hs Hd Hi). simpl.
  rewrite Hzero.
  split; intros Hnum; rewrite Hnum; repeat split.
Qed.

Lemma compute_metric_zero_length_witness :
  compute_metric (counts 0 0 0 0) Toy.start = (inr Float.zero, Toy.start)
  ∧ compute_metric (counts 0 1 0 0) Toy.start
      = (inr Float.one, with_warning Toy.start zero_length_message).
Proof.
  split.
  - apply (compute_metric_zero_length (counts 0 0 0 0)
             (Float.of_Z 0) (Float.of_Z 0) (Float.of_Z 0) (Float.of_Z 0));
      reflexivity.
  - apply (compute_metric_zero_length (counts 0 1 0 0)
             (Float.of_Z 0) (Float.of_Z 1) (Float.of_Z 0) (Float.of_Z 0));
      reflexivity.
Defined.

(** ** compute_components *)

Lemma float_add_int_zero (n : Z) (v : spec_float) :
  float_add_int Float.zero n = inr v → Float.add Float.zero v = v.
Proof.
  unfold float_add_int, mbind, result_bind.
  destruct (float_of_int n) as [e | f]; [discriminate |].
  intros [= <-]. apply Float_add_zero_idem.
Qed.

Lemma components_of_inv (cpwer : ErrorRate.t) (c : gmap string spec_float) :
  components_of cpwer = inr c →
  ∃ l s d i, c = components_dict l s d i ∧ Float.plain l ∧ Float.plain s ∧ Float.plain d ∧ Float.plain i.
Proof.
  unfold components_of, mbind, result_bind.
  destruct (float_add_int _ (ErrorRate.length cpwer)) as [e | l] eqn:Hl; [discriminate |].
  destruct (float_add_int _ (ErrorRate.substitutions cpwer)) as [e | s] eqn:Hs; [discriminate |].
  destruct (float_add_int _ (ErrorRate.deletions cpwer)) as [e | d] eqn:Hd; [discriminate |].
  destruct (float_add_int _ (ErrorRate.insertions cpwer)) as [e | i] eqn:Hi; [discriminate |].
  intros [= <-]. exists l, s, d, i.
  repeat split; eapply float_add_int_zero; eassumption.
Qed.

Lemma compute_components_inv (W : World) (self : CpWER) (reference : Annotation)
    (hypothesis : pyval) (c : gmap string spec_float) :
  compute_components W self reference hypothesis = inr c →
  ∃ l s d i, c = components_dict l s d i ∧ Float.plain l ∧ Float.plain s ∧ Float.plain d ∧ Float.plain i.
Proof.
  unfold compute_components, mbind, result_bind.
  destruct (getitem hypothesis 1); [discriminate |].
  destruct (listdir W _); [discriminate |].
  destruct (references_file_paths _ _ _ _); [discriminate |].
  destruct (mapM _ _); [discriminate |].
  destruct (normalize_hypothesis _ _); [discriminate |].
  destruct (cp_word_error_rate _ _ _); [discriminate |].
  apply components_of_inv.
Qed.

(** Only the directory of the metric object is read. *)
Lemma compute_components_dir (W : World) (self self' : CpWER)
    (reference : Annotation) (hypothesis : pyval) :
  reference_dir self' = reference_dir self →
  compute_components W self' reference hypothesis
    = compute_components W self reference hypothesis.
Proof. intros Hdir. unfold compute_components. rewrite Hdir. reflexivity. Qed.

Lemma components_dict_lookup (l s d i : spec_float) :
  components_dict l s d i !! "length" = Some l
  ∧ components_dict l s d i !! "substitutions" = Some s
  ∧ components_dict l s d i !! "deletions" = Some d
  ∧ components_dict l s d i !! "insertions" = Some i.
Proof. repeat split; reflexivity. Qed.

(** ** __call__ *)

Lemma compute_metric_dict (l s d i : spec_float) (h : heap) :
  ∃ v h1, compute_metric (components_dict l s d i) h = (inr v, h1)
          ∧ obj h1 = obj h.
Proof.
  destruct (components_dict_lookup l s d i) as (Hl & Hs & Hd & Hi).
  rewrite (compute_metric_unfold _ _ _ _ _ Hl Hs Hd Hi). simpl.
  destruct (Float.eqb l Float.zero); [| eauto].
  destruct (Float.eqb _ Float.zero); eauto.
Qed.

Lemma accumulate_components (c : gmap string spec_float) (h : heap)
    (a1 a2 a3 a4 x1 x2 x3 x4 : spec_float) :
  accumulated_ (obj h) !! "length" = Some a1 →
  accumulated_ (obj h) !! "substitutions" = Some a2 →
  accumulated_ (obj h) !! "deletions" = Some a3 →
  accumulated_ (obj h) !! "insertions" = Some a4 →
  c !! "length" = Some x1 →
  c !! "substitutions" = Some x2 →
  c !! "deletions" = Some x3 →
  c !! "insertions" = Some x4 →
  accumulate components_ c h
    = (inr tt,
       with_totals h
         (<["insertions" := Float.add a4 x4]>
          (<["deletions" := Float.add a3 x3]>
           (<["substitutions" := Float.add a2 x2]>
            (<["length" := Float.add a1 x1]> (accumulated_ (obj h))))))).
Proof.
  intros Ha1 Ha2 Ha3 Ha4 Hx1 Hx2 Hx3 Hx4.
  unfold components_, metric_components, accumulate.
  unfold mbind, M_bind, accumulated_get, accumulated_set, lift, dict_getitem.
  unfold with_totals. cbn [obj accumulated_ reference_dir results_ warned].
  rewrite Ha1, Hx1. cbn [mret result_ret obj accumulated_].
  rewrite lookup_insert_ne, Ha2, Hx2 by done. cbn [mret result_ret obj accumulated_].
  rewrite !lookup_insert_ne, Ha3, Hx3 by done. cbn [mret result_ret obj accumulated_].
  rewrite !lookup_insert_ne, Ha4, Hx4 by done. reflexivity.
Qed.

(** When a running total is missing, the loop raises. *)
Lemma accumulate_missing (c : gmap string spec_float) (h : heap) (u : unit) (h' : heap) :
  accumulate components_ c h = (inr u, h') →
  ∃ a1 a2 a3 a4,
    accumulated_ (obj h) !! "length" = Some a1 ∧
    accumulated_ (obj h) !! "substitutions" = Some a2 ∧
    accumulated_ (obj h) !! "deletions" = Some a3 ∧
    accumulated_ (obj h) !! "insertions" = Some a4.
Proof.
  unfold components_, metric_components, accumulate.
  unfold mbind, M_bind, accumulated_get, accumulated_set, lift, dict_getitem.
  unfold with_totals. cbn [obj accumulated_ reference_dir results_ warned].
  destruct (accumulated_ (obj h) !! "length") as [a1|] eqn:Ha1; [| discriminate].
  destruct (c !! "length") as [x1|]; [| discriminate].
  cbn [mret result_ret obj accumulated_].
  rewrite lookup_insert_ne by done.
  destruct (accumulated_ (obj h) !! "substitutions") as [a2|] eqn:Ha2; [| discriminate].
  destruct (c !! "substitutions") as [x2|]; [| discriminate].
  cbn [mret result_ret obj accumulated_].
  rewrite !lookup_insert_ne by done.
  destruct (accumulated_ (obj h) !! "deletions") as [a3|] eqn:Ha3; [| discriminate].
  destruct (c !! "deletions") as [x3|]; [| discriminate].
  cbn [mret result_ret obj accumulated_].
  rewrite !lookup_insert_ne by done.
  destruct (accumulated_ (obj h) !! "insertions") as [a4|] eqn:Ha4; [| discriminate].
  intros _. eauto 10.
Qed.

Lemma folded_into_inserts (totals c : gmap string spec_float)
    (a1 a2 a3 a4 x1 x2 x3 x4 : spec_float) :
  totals !! "length" = Some a1 →
  totals !! "substitutions" = Some a2 →
  totals !! "deletions" = Some a3 →
  totals !! "insertions" = Some a4 →
  c !! "length" = Some x1 →
  c !! "substitutions" = Some x2 →
  c !! "deletions" = Some x3 →
  c !! "insertions" = Some x4 →
  folded_into totals c
    (<["insertions" := Float.add a4 x4]>
     (<["deletions" := Float.add a3 x3]>
      (<["substitutions" := Float.add a2 x2]>
       (<["length" := Float.add a1 x1]> totals)))).
Proof.
  intros Ha1 Ha2 Ha3 Ha4 Hx1 Hx2 Hx3 Hx4. split.
  - intros name Hin. unfold components_, metric_components in Hin.
    repeat (apply elem_of_cons in Hin as [-> | Hin]).
    + exists a1, x1. by simplify_map_eq.
    + exists a2, x2. by simplify_map_eq.
    + exists a3, x3. by simplify_map_eq.
    + exists a4, x4. by simplify_map_eq.
    + by apply elem_of_nil in Hin.
  - intros name Hnot. unfold components_, metric_components in Hnot.
    rewrite !lookup_insert_ne; [done | ..]; intros <-; apply Hnot; set_solver.
Qed.

Section CallLemmas.

Variable W : World.
Variables (reference : Annotation) (hypothesis : pyval).
Variables (detailed : bool) (uri : option string).

Lemma call_raises (h : heap) (e : exn) :
  compute_components W (obj h) reference hypothesis = inl e →
  __call__ W reference hypothesis detailed uri h = (inl e, h).
Proof.
  intros Hcc. unfold __call__, mbind, M_bind, get_self, lift.
  rewrite Hcc. reflexivity.
Qed.

Lemma call_unfold (h h1 : heap) (c : gmap string spec_float) (v : spec_float) :
  compute_components W (obj h) reference hypothesis = inr c →
  compute_metric c h = (inr v, h1) →
  __call__ W reference hypothesis detailed uri h
    = match accumulate components_ (<[metric_name_ := v]> c)
              (appended h1 (_uri reference, <[metric_name_ := v]> c)) with
      | (inl e, h2) => (inl e, h2)
      | (inr _, h2) =>
          (inr (if detailed then Detailed (<[metric_name_ := v]> c) else Value v), h2)
      end.
Proof.
  intros Hcc Hcm. unfold __call__, mbind, M_bind, get_self, lift.
  rewrite Hcc, Hcm. unfold results_append. fold (appended h1 (_uri reference, <[metric_name_ := v]> c)).
  destruct (accumulate _ _ _) as [[e | []] h2]; [reflexivity |].
  destruct detailed; [reflexivity |].
  unfold dict_getitem. rewrite lookup_insert_eq. reflexivity.
Qed.

(** What a call that returns has done. *)
Lemma call_returns (h h' : heap) (r : retval) :
  __call__ W reference hypothesis detailed uri h = (inr r, h') →
  ∃ c v h1,
    compute_components W (obj h) reference hypothesis = inr c
    ∧ compute_metric c h = (inr v, h1)
    ∧ r = (if detailed then Detailed (<[metric_name_ := v]> c) else Value v)
    ∧ reference_dir (obj h') = reference_dir (obj h)
    ∧ results_ (obj h') = results_ (obj h) ++ [(_uri reference, <[metric_name_ := v]> c)]
    ∧ folded_into (accumulated_ (obj h)) c (accumulated_ (obj h'))
    ∧ warned h' = warned h1.
Proof.
  intros Hcall.
  destruct (compute_components W (obj h) reference hypothesis) as [e | c] eqn:Hcc.
  { rewrite (call_raises _ _ Hcc) in Hcall. discriminate. }
  destruct (compute_components_inv _ _ _ _ _ Hcc) as (l & s & d & i & -> & _).
  destruct (compute_metric_dict l s d i h) as (v & h1 & Hcm & Hobj).
  rewrite (call_unfold _ _ _ _ Hcc Hcm) in Hcall.
  destruct (accumulate _ _ _) as [[e | u] h2] eqn:Hacc; [discriminate |].
  injection Hcall as <- <-.
  destruct (accumulate_missing _ _ _ _ Hacc) as (a1 & a2 & a3 & a4 & Ha1 & Ha2 & Ha3 & Ha4).
  destruct (components_dict_lookup l s d i) as (Hl & Hs & Hd & Hi).
  cbn [appended obj accumulated_] in Ha1, Ha2, Ha3, Ha4.
  rewrite Hobj in Ha1, Ha2, Ha3, Ha4.
  rewrite (accumulate_components _ _ a1 a2 a3 a4 l s d i) in Hacc;
    try (cbn [appended obj accumulated_]; rewrite Hobj; assumption);
    try (rewrite lookup_insert_ne by done; assumption).
  injection Hacc as _ <-.
  cbn [appended with_totals obj accumulated_ results_ reference_dir warned].
  rewrite Hobj.
  exists (components_dict l s d i), v, h1.
  split; [reflexivity |]. split; [assumption |].
  do 3 (split; [reflexivity |]). split; [| reflexivity].
  apply (folded_into_inserts _ _ _ _ _ _ _ _ _ _ Ha1 Ha2 Ha3 Ha4 Hl Hs Hd Hi).
Qed.

(** On a well-formed object the call raises only when
    [compute_components] does. *)
Lemma call_total (h : heap) (c : gmap string spec_float) :
  wf (obj h) →
  compute_components W (obj h) reference hypothesis = inr c →
  ∃ r h', __call__ W reference hypothesis detailed uri h = (inr r, h').
Proof.
  intros Hwf Hcc.
  destruct (compute_components_inv _ _ _ _ _ Hcc) as (l & s & d & i & -> & _).
  destruct (compute_metric_dict l s d i h) as (v & h1 & Hcm & Hobj).
  rewrite (call_unfold _ _ _ _ Hcc Hcm).
  destruct (Hwf "length") as [a1 Ha1]; [unfold components_, metric_components; set_solver |].
  destruct (Hwf "substitutions") as [a2 Ha2]; [unfold components_, metric_components; set_solver |].
  destruct (Hwf "deletions") as [a3 Ha3]; [unfold components_, metric_components; set_solver |].
  destruct (Hwf "insertions") as [a4 Ha4]; [unfold components_, metric_components; set_solver |].
  destruct (components_dict_lookup l s d i) as (Hl & Hs & Hd & Hi).
  rewrite (accumulate_components _ _ a1 a2 a3 a4 l s d i);
    try (cbn [appended obj accumulated_]; rewrite Hobj; assumption);
    try (rewrite lookup_insert_ne by done; assumption).
  eauto.
Qed.

Lemma call_wf (h h' : heap) (r : result retval) :
  wf (obj h) →
  __call__ W reference hypothesis detailed uri h = (r, h') →
  wf (obj h').
Proof.
  intros Hwf Hcall. destruct r as [e | r].
  - destruct (compute_components W (obj h) reference hypothesis) as [e' | c] eqn:Hcc.
    + rewrite (call_raises _ _ Hcc) in Hcall. by injection Hcall as _ <-.
    + destruct (call_total _ _ Hwf Hcc) as (r & h'' & Hok). congruence.
  - destruct (call_returns _ _ _ Hcall) as (c & v & h1 & _ & _ & _ & _ & _ & [Hfold _] & _).
    intros name Hin. destruct (Hfold name Hin) as (a & x & _ & _ & ->). eauto.
Qed.

End CallLemmas.

(** C6. When the component computation of a call raises (reference
    retrieval, normalization or alignment), the call raises the same
    exception and leaves the whole state as it was: running totals,
    history and warnings. *)
Theorem call_failure_isolated (W : World) (x : sample) (h : heap) (e : exn) :
  compute_components W (obj h) (reference x) (hypothesis x) = inl e →
  __call__ W (reference x) (hypothesis x) (detailed x) (uri x) h = (inl e, h)
  ∧ accumulated_ (obj (__call__ W (reference x) (hypothesis x) (detailed x) (uri x) h).2)
      = accumulated_ (obj h)
  ∧ results_ (obj (__call__ W (reference x) (hypothesis x) (detailed x) (uri x) h).2)
      = results_ (obj h).
Proof.
  intros Hcc. rewrite (call_raises _ _ _ _ _ _ _ Hcc). repeat split.
Qed.

(** The reference file of recording D cannot be read. *)
Lemma call_failure_isolated_witness :
  let x := {| reference := Toy.annotation "D";
              hypothesis := Toy.triple (PyStr "x");
              detailed := false; uri := None |} in
  compute_components Toy.world (obj Toy.start) (reference x) (hypothesis x)
    = inl (Raised "PermissionError")
  ∧ __call__ Toy.world (reference x) (hypothesis x) (detailed x) (uri x) Toy.start
      = (inl (Raised "PermissionError"), Toy.start).
Proof.
  intros x. split; [reflexivity |].
  apply (call_failure_isolated Toy.world x Toy.start (Raised "PermissionError")).
  reflexivity.
Defined.

(** C3. A call that returns has added to each of the four running totals
    exactly the sample's value of that component and changed no other
    total; so after two calls that return, on an object whose four totals
    were zero, every total is the float sum of the two samples' values. *)
Theorem call_accumulates (W : World) (x1 x2 : sample) (h h1 h2 : heap)
    (r1 r2 : retval) :
  __call__ W (reference x1) (hypothesis x1) (detailed x1) (uri x1) h = (inr r1, h1) →
  __call__ W (reference x2) (hypothesis x2) (detailed x2) (uri x2) h1 = (inr r2, h2) →
  ∃ c1 c2,
    compute_components W (obj h) (reference x1) (hypothesis x1) = inr c1
    ∧ compute_components W (obj h1) (reference x2) (hypothesis x2) = inr c2
    ∧ folded_into (accumulated_ (obj h)) c1 (accumulated_ (obj h1))
    ∧ folded_into (accumulated_ (obj h1)) c2 (accumulated_ (obj h2))
    ∧ ((∀ name, name ∈ metric_components →
          accumulated_ (obj h) !! name = Some Float.zero) →
       ∀ name, name ∈ metric_components →
         ∃ v1 v2, c1 !! name = Some v1 ∧ c2 !! name = Some v2
                  ∧ accumulated_ (obj h2) !! name = Some (Float.add v1 v2)).
Proof.
  intros Hcall1 Hcall2.
  destruct (call_returns _ _ _ _ _ _ _ _ Hcall1)
    as (c1 & v1 & k1 & Hcc1 & _ & _ & _ & _ & Hfold1 & _).
  destruct (call_returns _ _ _ _ _ _ _ _ Hcall2)
    as (c2 & v2 & k2 & Hcc2 & _ & _ & _ & _ & Hfold2 & _).
  exists c1, c2. do 4 (split; [assumption |]).
  intros Hzero name Hin.
  destruct Hfold1 as [Hfold1 _]. destruct Hfold2 as [Hfold2 _].
  destruct (Hfold1 name Hin) as (a & y1 & Ha & Hy1 & Hsum1).
  destruct (Hfold2 name Hin) as (a' & y2 & Ha' & Hy2 & Hsum2).
  exists y1, y2. do 2 (split; [assumption |]).
  rewrite Hsum2. f_equal. f_equal.
  rewrite Hsum1 in Ha'. injection Ha' as <-.
  rewrite (Hzero name Hin) in Ha. injection Ha as <-.
  destruct (compute_components_inv _ _ _ _ _ Hcc1)
    as (l & s & d & i & -> & Hl & Hs & Hd & Hi).
  unfold metric_components in Hin.
  repeat (apply elem_of_cons in Hin as [-> | Hin]);
    [| | | | by apply elem_of_nil in Hin];
    vm_compute in Hy1; injection Hy1 as <-; assumption.
Qed.

Lemma call_accumulates_witness :
  ∃ c1 c2,
    compute_components Toy.world (obj Toy.start)
      (reference Toy.sample_A) (hypothesis Toy.sample_A) = inr c1
    ∧ compute_components Toy.world (obj (Toy.after Toy.sample_A Toy.start))
        (reference Toy.sample_B) (hypothesis Toy.sample_B) = inr c2
    ∧ folded_into (accumulated_ (obj Toy.start)) c1
        (accumulated_ (obj (Toy.after Toy.sample_A Toy.start)))
    ∧ folded_into (accumulated_ (obj (Toy.after Toy.sample_A Toy.start))) c2
        (accumulated_ (obj (Toy.after Toy.sample_B (Toy.after Toy.sample_A Toy.start))))
    ∧ ((∀ name, name ∈ metric_components →
          accumulated_ (obj Toy.start) !! name = Some Float.zero) →
       ∀ name, name ∈ metric_components →
         ∃ v1 v2, c1 !! name = Some v1 ∧ c2 !! name = Some v2
                  ∧ accumulated_ (obj (Toy.after Toy.sample_B (Toy.after Toy.sample_A Toy.start)))
                      !! name = Some (Float.add v1 v2)).
Proof.
  apply (call_accumulates Toy.world Toy.sample_A Toy.sample_B Toy.start
           (Toy.after Toy.sample_A Toy.start)
           (Toy.after Toy.sample_B (Toy.after Toy.sample_A Toy.start))
           (Value (Float.div (Float.of_Z 1) (Float.of_Z 10)))
           (Detailed (<[metric_name_ := Float.one]> (counts 1 1 0 0))));
    compute_done.
Defined.

(** ** The history *)

Lemma history_entry_dir (W : World) (self self' : CpWER) (x : sample) :
  reference_dir self' = reference_dir self →
  history_entry W self' x = history_entry W self x.
Proof.
  intros Hdir. unfold history_entry.
  rewrite (compute_components_dir W self self' _ _ Hdir).
  destruct (compute_components W self _ _) as [e | c]; [reflexivity |].
  pose proof (compute_metric_value_agree c c
                {| obj := self; warned := [] |} {| obj := self'; warned := [] |}
                (λ _ _, eq_refl)) as Hv.
  destruct (compute_metric c {| obj := self; warned := [] |}) as [r k].
  destruct (compute_metric c {| obj := self'; warned := [] |}) as [r' k'].
  simpl in Hv. subst r'. reflexivity.
Qed.

(** One call on a well-formed object: it returns exactly when the sample
    has a history entry, which it appends; otherwise the history stays. *)
Lemma call_history (W : World) (x : sample) (h h' : heap) (r : result retval) :
  wf (obj h) →
  __call__ W (reference x) (hypothesis x) (detailed x) (uri x) h = (r, h') →
  reference_dir (obj h') = reference_dir (obj h)
  ∧ results_ (obj h') = results_ (obj h) ++ option_list (history_entry W (obj h) x)
  ∧ List.length (option_list (history_entry W (obj h) x))
      = (if succeeded r then 1 else 0).
Proof.
  intros Hwf Hcall. unfold history_entry. destruct r as [e | r].
  - destruct (compute_components W (obj h) _ _) as [e' | c] eqn:Hcc.
    + rewrite (call_raises _ _ _ _ _ _ _ Hcc) in Hcall. injection Hcall as _ <-.
      simpl. rewrite app_nil_r. done.
    + destruct (call_total _ _ _ (detailed x) (uri x) _ _ Hwf Hcc) as (r & h'' & Hok).
      congruence.
  - destruct (call_returns _ _ _ _ _ _ _ _ Hcall)
      as (c & v & h1 & Hcc & Hcm & _ & Hdir & Hres & _ & _).
    rewrite Hcc.
    pose proof (compute_metric_value_agree c c h
                  {| obj := obj h; warned := [] |} (λ _ _, eq_refl)) as Hv.
    rewrite Hcm in Hv.
    destruct (compute_metric c {| obj := obj h; warned := [] |}) as [r' k'].
    simpl in Hv. subst r'. done.
Qed.

(** C5. The history is append-only. Over an evaluation run on a
    well-formed metric object, the history after the run is the history
    before it followed by the entries of the samples whose component
    computation returned, one per sample and in call order; its length
    grows by the number of calls that returned, and a call that raised
    contributes nothing. *)
Theorem history_append_only (W : World) (samples : list sample) (h : heap) :
  wf (obj h) →
  results_ (obj (evaluate W samples h).2)
    = results_ (obj h) ++ omap (history_entry W (obj h)) samples
  ∧ List.length (results_ (obj (evaluate W samples h).2))
      = List.length (results_ (obj h))
        + List.length (List.filter succeeded (evaluate W samples h).1).
Proof.
  revert h. induction samples as [| x rest IH]; intros h Hwf.
  - simpl. rewrite app_nil_r. split; [reflexivity | lia].
  - cbn [evaluate].
    destruct (__call__ W (reference x) (hypothesis x) (detailed x) (uri x) h)
      as [r h1] eqn:Hcall.
    destruct (call_history _ _ _ _ _ Hwf Hcall) as (Hdir & Hres & Hlen).
    pose proof (call_wf _ _ _ _ _ _ _ _ Hwf Hcall) as Hwf1.
    destruct (IH h1 Hwf1) as [IHres IHlen].
    destruct (evaluate W rest h1) as [rs h2]. cbn [fst snd] in *.
    assert (Hentries : omap (history_entry W (obj h1)) rest
                       = omap (history_entry W (obj h)) rest).
    { apply list_omap_ext, Forall_Forall2_diag, Forall_forall. intros y _.
      apply history_entry_dir, Hdir. }
    split.
    + rewrite IHres, Hres, Hentries, <- app_assoc. f_equal.
      cbn [omap list_omap]. destruct (history_entry W (obj h) x); reflexivity.
    + rewrite IHlen, Hres, length_app, Hlen. cbn [List.filter].
      destruct (succeeded r); simpl; lia.
Qed.

Lemma reset_wf (self : CpWER) : wf (reset self).
Proof.
  intros name Hin. unfold components_, metric_components in Hin.
  repeat (apply elem_of_cons in Hin as [-> | Hin]);
    [| | | | by apply elem_of_nil in Hin]; by eexists.
Qed.

Lemma history_append_only_witness :
  let samples := [Toy.sample_A; Toy.sample_D; Toy.sample_short; Toy.sample_B] in
  wf (obj Toy.start)
  ∧ results_ (obj (evaluate Toy.world samples Toy.start).2)
      = results_ (obj Toy.start) ++ omap (history_entry Toy.world (obj Toy.start)) samples
  ∧ List.length (results_ (obj (evaluate Toy.world samples Toy.start).2))
      = List.length (results_ (obj Toy.start))
        + List.length (List.filter succeeded (evaluate Toy.world samples Toy.start).1).
Proof.
  intros samples.
  assert (Hwf : wf (obj Toy.start)) by apply reset_wf.
  split; [exact Hwf |].
  exact (history_append_only Toy.world samples Toy.start Hwf).
Defined.

Example history_of_run :
  let run := evaluate Toy.world
               [Toy.sample_A; Toy.sample_D; Toy.sample_short; Toy.sample_B] Toy.start in
  succeeded <$> run.1 = [true; false; false; true]
  ∧ (results_ (obj run.2)).*1 = [Some "A"; Some "B"].
Proof. vm_compute. split; reflexivity. Qed.

(** ** The corpus value *)

(** [compute_metric] on integer counts with a length that is not zero. *)
Lemma compute_metric_counts (l s d i : Z) (v : spec_float) :
  Float.eqb (Float.of_Z l) Float.zero = false →
  Float.div (Float.add (Float.add (Float.of_Z s) (Float.of_Z d)) (Float.of_Z i))
            (Float.of_Z l) = v →
  ∀ k, compute_metric (counts l s d i) k = (inr v, k).
Proof.
  intros Hl Hv k.
  destruct (components_dict_lookup (Float.of_Z l) (Float.of_Z s) (Float.of_Z d)
              (Float.of_Z i)) as (H1 & H2 & H3 & H4).
  rewrite (compute_metric_unfold _ _ _ _ _ H1 H2 H3 H4). cbn zeta.
  rewrite Hl, Hv. reflexivity.
Qed.

(** One call on a sample with integer counts and no warning, on an object
    whose four totals are known. *)
Lemma call_on_counts (W : World) (ref : Annotation) (hyp : pyval) (flag : bool)
    (override : option string) (h : heap) (l s d i : Z) (v : spec_float)
    (a1 a2 a3 a4 : spec_float) :
  compute_components W (obj h) ref hyp = inr (counts l s d i) →
  compute_metric (counts l s d i) h = (inr v, h) →
  accumulated_ (obj h) !! "length" = Some a1 →
  accumulated_ (obj h) !! "substitutions" = Some a2 →
  accumulated_ (obj h) !! "deletions" = Some a3 →
  accumulated_ (obj h) !! "insertions" = Some a4 →
  __call__ W ref hyp flag override h
    = (inr (if flag then Detailed (<[metric_name_ := v]> (counts l s d i))
            else Value v),
       with_totals (appended h (_uri ref, <[metric_name_ := v]> (counts l s d i)))
         (<["insertions" := Float.add a4 (Float.of_Z i)]>
          (<["deletions" := Float.add a3 (Float.of_Z d)]>
           (<["substitutions" := Float.add a2 (Float.of_Z s)]>
            (<["length" := Float.add a1 (Float.of_Z l)]> (accumulated_ (obj h))))))).
Proof.
  intros Hcc Hcm Ha1 Ha2 Ha3 Ha4.
  rewrite (call_unfold _ _ _ _ _ _ _ _ _ Hcc Hcm).
  destruct (components_dict_lookup (Float.of_Z l) (Float.of_Z s) (Float.of_Z d)
              (Float.of_Z i)) as (H1 & H2 & H3 & H4).
  rewrite (accumulate_components _ _ a1 a2 a3 a4
             (Float.of_Z l) (Float.of_Z s) (Float.of_Z d) (Float.of_Z i));
    try assumption;
    try (rewrite lookup_insert_ne by done; assumption).
  reflexivity.
Qed.

(** C4. The corpus value, [compute_metric] applied to the running totals,
    is pooled and not the mean of the per-sample rates: after a sample with
    components (L=10, S=1, D=0, I=0) and one with (L=1, S=1, D=0, I=0) on a
    fresh object, the per-sample rates in the history are 1/10 and 1/1, the
    totals are (11, 2, 0, 0), and [compute_metric] of the totals is 2/11,
    which differs from the mean of the two rates. *)
Theorem corpus_value_pooled (W : World) (x1 x2 : sample) (dir : string)
    (w : list string) :
  compute_components W (init dir) (reference x1) (hypothesis x1)
    = inr (counts 10 1 0 0) →
  compute_components W (init dir) (reference x2) (hypothesis x2)
    = inr (counts 1 1 0 0) →
  ∃ r1 r2 h1 h2 rate1 rate2,
    __call__ W (reference x1) (hypothesis x1) (detailed x1) (uri x1)
      {| obj := init dir; warned := w |} = (inr r1, h1)
    ∧ __call__ W (reference x2) (hypothesis x2) (detailed x2) (uri x2) h1
        = (inr r2, h2)
    ∧ results_ (obj h2)
        = [(_uri (reference x1), <[metric_name_ := rate1]> (counts 10 1 0 0));
           (_uri (reference x2), <[metric_name_ := rate2]> (counts 1 1 0 0))]
    ∧ rate1 = Float.div (Float.of_Z 1) (Float.of_Z 10)
    ∧ rate2 = Float.div (Float.of_Z 1) (Float.of_Z 1)
    ∧ accumulated_ (obj h2) = counts 11 2 0 0
    ∧ compute_metric (accumulated_ (obj h2)) h2
          = (inr (Float.div (Float.of_Z 2) (Float.of_Z 11)), h2)
    ∧ Float.div (Float.of_Z 2) (Float.of_Z 11)
        ≠ Float.div (Float.add rate1 rate2) (Float.of_Z 2).
Proof.
  intros Hcc1 Hcc2.
  set (h := {| obj := init dir; warned := w |}).
  set (rate1 := Float.div (Float.of_Z 1) (Float.of_Z 10)).
  set (rate2 := Float.div (Float.of_Z 1) (Float.of_Z 1)).
  set (c1 := <[metric_name_ := rate1]> (counts 10 1 0 0)).
  set (c2 := <[metric_name_ := rate2]> (counts 1 1 0 0)).
  pose proof (call_on_counts W (reference x1) (hypothesis x1) (detailed x1) (uri x1)
                h 10 1 0 0 rate1
                Float.zero Float.zero Float.zero Float.zero
                Hcc1 (compute_metric_counts 10 1 0 0 rate1 eq_refl eq_refl h)
                eq_refl eq_refl eq_refl eq_refl) as Hcall1.
  fold c1 in Hcall1.
  set (h1 := with_totals (appended h (_uri (reference x1), c1))
               (<["insertions" := Float.add Float.zero (Float.of_Z 0)]>
                (<["deletions" := Float.add Float.zero (Float.of_Z 0)]>
                 (<["substitutions" := Float.add Float.zero (Float.of_Z 1)]>
                  (<["length" := Float.add Float.zero (Float.of_Z 10)]>
                   (accumulated_ (obj h))))))) in Hcall1.
  assert (Hdir : reference_dir (obj h1) = reference_dir (init dir)) by reflexivity.
  rewrite <- (compute_components_dir W _ _ _ _ Hdir) in Hcc2.
  pose proof (call_on_counts W (reference x2) (hypothesis x2) (detailed x2) (uri x2)
                h1 1 1 0 0 rate2
                (Float.add Float.zero (Float.of_Z 10))
                (Float.add Float.zero (Float.of_Z 1))
                (Float.add Float.zero (Float.of_Z 0))
                (Float.add Float.zero (Float.of_Z 0))
                Hcc2 (compute_metric_counts 1 1 0 0 rate2 eq_refl eq_refl h1)
                eq_refl eq_refl eq_refl eq_refl) as Hcall2.
  fold c2 in Hcall2.
  match type of Hcall2 with _ = (_, ?k) => set (h2 := k) in Hcall2 end.
  assert (Htotals : accumulated_ (obj h2) = counts 11 2 0 0) by compute_done.
  eexists _, _, h1, h2, rate1, rate2.
  split; [exact Hcall1 |]. split; [exact Hcall2 |].
  split; [reflexivity |]. split; [reflexivity |]. split; [reflexivity |].
  split; [exact Htotals |]. split.
  - rewrite Htotals. apply compute_metric_counts; vm_compute; reflexivity.
  - vm_compute. discriminate.
Qed.

Lemma corpus_value_pooled_witness :
  compute_components Toy.world (init "refs")
    (reference Toy.sample_A) (hypothesis Toy.sample_A) = inr (counts 10 1 0 0)
  ∧ compute_components Toy.world (init "refs")
      (reference Toy.sample_B) (hypothesis Toy.sample_B) = inr (counts 1 1 0 0)
  ∧ ∃ r1 r2 h1 h2 rate1 rate2,
      __call__ Toy.world (reference Toy.sample_A) (hypothesis Toy.sample_A)
        (detailed Toy.sample_A) (uri Toy.sample_A)
        {| obj := init "refs"; warned := [] |} = (inr r1, h1)
      ∧ __call__ Toy.world (reference Toy.sample_B) (hypothesis Toy.sample_B)
          (detailed Toy.sample_B) (uri Toy.sample_B) h1 = (inr r2, h2)
      ∧ results_ (obj h2)
          = [(_uri (reference Toy.sample_A), <[metric_name_ := rate1]> (counts 10 1 0 0));
             (_uri (reference Toy.sample_B), <[metric_name_ := rate2]> (counts 1 1 0 0))]
      ∧ rate1 = Float.div (Float.of_Z 1) (Float.of_Z 10)
      ∧ rate2 = Float.div (Float.of_Z 1) (Float.of_Z 1)
      ∧ accumulated_ (obj h2) = counts 11 2 0 0
      ∧ compute_metric (accumulated_ (obj h2)) h2
          = (inr (Float.div (Float.of_Z 2) (Float.of_Z 11)), h2)
      ∧ Float.div (Float.of_Z 2) (Float.of_Z 11)
          ≠ Float.div (Float.add rate1 rate2) (Float.of_Z 2).
Proof.
  split; [reflexivity |]. split; [reflexivity |].
  apply (corpus_value_pooled Toy.world Toy.sample_A Toy.sample_B "refs" []);
    reflexivity.
Defined.

(** Why [wf] is assumed: on an object without running totals (not one that
    [reset] makes) the loop of lines 174-175 raises after the append. *)
Example call_without_totals :
  let broken := {| obj := {| reference_dir := "refs"; accumulated_ := ∅;
                             results_ := [] |};
                   warned := [] |} in
  let run := evaluate Toy.world [Toy.sample_A] broken in
  run.1 = [inl (KeyError "length")]
  ∧ (results_ (obj run.2)).*1 = [Some "A"].
Proof. vm_compute. split; reflexivity. Qed.

(** ** The hypothesis argument *)

(** C10. [compute_components] reads the hypothesis at index 1 only: two
    hypotheses with the same [hypothesis[1]] give the same result for every
    reference, and a hypothesis that cannot be indexed at 1 makes the call
    raise what the indexing raises. *)
Theorem compute_components_reads_index_1 (W : World) (self : CpWER)
    (ref : Annotation) (hyp1 hyp2 : pyval) :
  getitem hyp1 1 = getitem hyp2 1 →
  compute_components W self ref hyp1 = compute_components W self ref hyp2
  ∧ ∀ e, getitem hyp1 1 = inl e → compute_components W self ref hyp1 = inl e.
Proof.
  intros Hsame. unfold compute_components. split.
  - rewrite Hsame. reflexivity.
  - intros e He. rewrite He. reflexivity.
Qed.

Lemma compute_components_reads_index_1_witness :
  let hyp1 := PyList [PyObj 0; PyStr "x"; PyObj 1] in
  let hyp2 := PyList [PyStr "left out"; PyStr "x"] in
  getitem hyp1 1 = getitem hyp2 1
  ∧ compute_components Toy.world (init "refs") (Toy.annotation "A") hyp1
      = compute_components Toy.world (init "refs") (Toy.annotation "A") hyp2
  ∧ ∀ e, getitem hyp1 1 = inl e →
         compute_components Toy.world (init "refs") (Toy.annotation "A") hyp1 = inl e.
Proof.
  intros hyp1 hyp2. split; [reflexivity |].
  apply (compute_components_reads_index_1 Toy.world (init "refs")
           (Toy.annotation "A") hyp1 hyp2).
  reflexivity.
Defined.

(** C7, as stated, fails: a bare string given as the hypothesis is indexed
    like any other hypothesis, so the text that is aligned is its second
    character, while a one-element list of the same string has no index 1. *)
Lemma bare_string_hypothesis_differs :
  compute_components Toy.world (init "refs") (Toy.annotation "A") (PyStr "xy")
    = inr (counts 10 1 0 0)
  ∧ compute_components Toy.world (init "refs") (Toy.annotation "A") (PyList [PyStr "xy"])
      = inl IndexError
  ∧ compute_components Toy.world (init "refs") (Toy.annotation "A") (PyStr "xy")
      ≠ compute_components Toy.world (init "refs") (Toy.annotation "A") (PyList [PyStr "xy"]).
Proof.
  assert (Hstr : compute_components Toy.world (init "refs") (Toy.annotation "A")
                   (PyStr "xy") = inr (counts 10 1 0 0))
    by compute_done.
  assert (Hlist : compute_components Toy.world (init "refs") (Toy.annotation "A")
                    (PyList [PyStr "xy"]) = inl IndexError)
    by compute_done.
  split; [exact Hstr |]. split; [exact Hlist |].
  rewrite Hstr, Hlist. discriminate.
Qed.

(** C7, amended. The wrapping applies to the element at index 1 of the
    hypothesis: a hypothesis with the bare string [s] there gives the same
    result as one with the one-element list of [s] there, for every
    reference and whatever the other elements are. *)
Theorem wrapping_at_index_1 (W : World) (self : CpWER) (ref : Annotation)
    (hyp1 hyp2 : pyval) (s : string) :
  getitem hyp1 1 = inr (PyStr s) →
  getitem hyp2 1 = inr (PyList [PyStr s]) →
  compute_components W self ref hyp1 = compute_components W self ref hyp2.
Proof.
  intros H1 H2. unfold compute_components. rewrite H1, H2. reflexivity.
Qed.

Lemma wrapping_at_index_1_witness :
  let hyp1 := PyList [PyObj 0; PyStr "xy"; PyObj 1] in
  let hyp2 := PyList [PyObj 0; PyList [PyStr "xy"]; PyObj 1] in
  getitem hyp1 1 = inr (PyStr "xy")
  ∧ getitem hyp2 1 = inr (PyList [PyStr "xy"])
  ∧ compute_components Toy.world (init "refs") (Toy.annotation "A") hyp1
      = compute_components Toy.world (init "refs") (Toy.annotation "A") hyp2.
Proof.
  intros hyp1 hyp2. split; [reflexivity |]. split; [reflexivity |].
  apply (wrapping_at_index_1 Toy.world (init "refs") (Toy.annotation "A")
           hyp1 hyp2 "xy"); reflexivity.
Defined.

(** ** The uri argument *)

(** The [uri] argument of [__call__] is never read. *)
Lemma call_ignores_uri (W : World) (ref : Annotation) (hyp : pyval)
    (detailed : bool) (uri : option string) (h : heap) :
  __call__ W ref hyp detailed uri h = __call__ W ref hyp detailed None h.
Proof. reflexivity. Qed.

(** C8 fails on the code. Called on the annotation of recording A with
    [uri="B"], the metric reads the reference of A (10 characters, not the
    one of B) and logs the sample under "A". *)
Example uri_override_ignored :
  let after := (__call__ Toy.world (Toy.annotation "A") (Toy.triple (PyStr "x"))
                  true (Some "B") Toy.start).2 in
  results_ (obj after)
    = [(Some "A",
        <[metric_name_ := Float.div (Float.of_Z 1) (Float.of_Z 10)]> (counts 10 1 0 0))]
  ∧ (results_ (obj after)).*1 ≠ [Some "B"]
  ∧ compute_components Toy.world (init "refs") (Toy.annotation "B") (Toy.triple (PyStr "x"))
      = inr (counts 1 1 0 0).
Proof.
  intros after. subst after.
  split; [compute_done |].
  split; [| compute_done].
  assert (Hkeys : (results_ (obj (__call__ Toy.world (Toy.annotation "A")
                                    (Toy.triple (PyStr "x")) true (Some "B")
                                    Toy.start).2)).*1 = [Some "A"])
    by compute_done.
  rewrite Hkeys. discriminate.
Qed.

(** ** A reference that is not there *)

(** C9, as stated, fails: no file of the directory starts with "Z", and
    the call returns components (all of the hypothesis is insertions)
    instead of raising. *)
Lemma missing_reference_not_raised :
  listdir Toy.world "refs" = inr ["A.words"; "B.words"; "C.words"; "D.words"]
  ∧ references_file_paths Toy.world "refs" (Some "Z")
      ["A.words"; "B.words"; "C.words"; "D.words"] = inr []
  ∧ compute_components Toy.world (init "refs") (Toy.annotation "Z")
      (Toy.triple (PyStr "xy")) = inr (counts 0 0 0 2)
  ∧ compute_components Toy.world (init "refs") (Toy.annotation "Z")
      (Toy.triple (PyStr "xy")) ≠ inl (Raised "ReferenceNotFoundError").
Proof.
  assert (Hreturns : compute_components Toy.world (init "refs") (Toy.annotation "Z")
                       (Toy.triple (PyStr "xy")) = inr (counts 0 0 0 2))
    by compute_done.
  split; [reflexivity |]. split; [reflexivity |]. split; [exact Hreturns |].
  rewrite Hreturns. discriminate.
Qed.

Lemma references_file_paths_none (W : World) (dir : string) (uri : option string)
    (files : list string) :
  (∀ file, file ∈ files → startswith file uri = inr false) →
  references_file_paths W dir uri files = inr [].
Proof.
  induction files as [| file rest IH]; intros Hnone; [reflexivity |].
  cbn [references_file_paths]. rewrite (Hnone file) by set_solver.
  unfold mbind, result_bind at 1. rewrite IH; [reflexivity |].
  intros f Hf. apply Hnone. set_solver.
Qed.

(** C9, amended. When the directory can be listed and no file name in it
    starts with the reference's identifier, [compute_components] raises
    nothing on that account: the reference list is empty, and the result
    is what indexing and normalizing the hypothesis and aligning it with
    the empty reference list give. *)
Theorem missing_reference_is_empty_reference (W : World) (self : CpWER)
    (ref : Annotation) (hyp : pyval) (files : list string) :
  listdir W (reference_dir self) = inr files →
  (∀ file, file ∈ files → startswith file (_uri ref) = inr false) →
  compute_components W self ref hyp
    = (asr_hypothesis ← getitem hyp 1;
       asr_hypothesis ← normalize_hypothesis W asr_hypothesis;
       cpwer ← cp_word_error_rate W [] asr_hypothesis;
       components_of cpwer).
Proof.
  intros Hlist Hnone. unfold compute_components.
  rewrite Hlist. unfold mbind, result_bind at 2 3.
  rewrite (references_file_paths_none _ _ _ _ Hnone). reflexivity.
Qed.

Lemma missing_reference_is_empty_reference_witness :
  listdir Toy.world "refs" = inr ["A.words"; "B.words"; "C.words"; "D.words"]
  ∧ compute_components Toy.world (init "refs") (Toy.annotation "Z")
      (Toy.triple (PyStr "xy"))
    = (asr_hypothesis ← getitem (Toy.triple (PyStr "xy")) 1;
       asr_hypothesis ← normalize_hypothesis Toy.world asr_hypothesis;
       cpwer ← cp_word_error_rate Toy.world [] asr_hypothesis;
       components_of cpwer).
Proof.
  split; [reflexivity |].
  apply (missing_reference_is_empty_reference Toy.world (init "refs")
           (Toy.annotation "Z") (Toy.triple (PyStr "xy"))
           ["A.words"; "B.words"; "C.words"; "D.words"]).
  - reflexivity.
  - intros file Hin.
    repeat (apply elem_of_cons in Hin as [-> | Hin]);
      [| | | | by apply elem_of_nil in Hin]; reflexivity.
Defined.

(** * Further properties of the code *)

(** ** compute_metric on any mapping *)

(** [compute_metric] raises exactly when one of the four fields is missing:
    the [KeyError] names the first missing key in reading order, and
    nothing is emitted or changed; with the four fields it returns. *)
Theorem compute_metric_missing_key (components : gmap string spec_float) (h : heap) :
  match first_missing components with
  | Some key => compute_metric components h = (inl (KeyError key), h)
  | None => ∃ v h', compute_metric components h = (inr v, h')
  end.
Proof.
  unfold first_missing, compute_metric, mbind, M_bind, lift, dict_getitem.
  cbn [List.find].
  destruct (components !! "substitutions") as [s |] eqn:Hs;
    [rewrite bool_decide_eq_false_2 by done | rewrite bool_decide_eq_true_2 by done; reflexivity].
  destruct (components !! "deletions") as [d |] eqn:Hd;
    [rewrite bool_decide_eq_false_2 by done | rewrite bool_decide_eq_true_2 by done; reflexivity].
  destruct (components !! "insertions") as [i |] eqn:Hi;
    [rewrite bool_decide_eq_false_2 by done | rewrite bool_decide_eq_true_2 by done; reflexivity].
  destruct (components !! "length") as [l |] eqn:Hl;
    [rewrite bool_decide_eq_false_2 by done | rewrite bool_decide_eq_true_2 by done; reflexivity].
  cbn.
  destruct (Float.eqb l Float.zero); [| eauto].
  destruct (Float.eqb _ Float.zero); eauto.
Qed.

(** Whatever the mapping, [compute_metric] leaves the metric object alone
    and emits at most the zero-length warning. *)
Lemma compute_metric_frame (components : gmap string spec_float) (h : heap) :
  obj (compute_metric components h).2 = obj h
  ∧ (warned (compute_metric components h).2 = warned h
     ∨ warned (compute_metric components h).2 = warned h ++ [zero_length_message]).
Proof.
  unfold compute_metric, mbind, M_bind, lift, dict_getitem.
  destruct (components !! "substitutions") as [s |]; [| by auto].
  destruct (components !! "deletions") as [d |]; [| by auto].
  destruct (components !! "insertions") as [i |]; [| by auto].
  destruct (components !! "length") as [l |]; [| by auto].
  cbn.
  destruct (Float.eqb l Float.zero); [| by auto].
  destruct (Float.eqb _ Float.zero); cbn; auto.
Qed.

(** ** The reference files and what the aligner receives *)

Lemma mapM_inr {A B} (f : A → result B) (xs : list A) (ys : list B) :
  mapM f xs = inr ys ↔ Forall2 (λ x y, f x = inr y) xs ys.
Proof.
  revert ys. induction xs as [| x rest IH]; intros ys; cbn [mapM].
  - split.
    + intros [= <-]. constructor.
    + intros Hall. inversion Hall. reflexivity.
  - unfold mbind, result_bind. split.
    + destruct (f x) as [e | y] eqn:Hx; [discriminate |].
      destruct (mapM f rest) as [e | ys'] eqn:Hrest; [discriminate |].
      intros [= <-]. constructor; [assumption |]. by apply IH.
    + intros Hall. inversion Hall as [| ? y ? ys' Hx Hrest]; subst.
      rewrite Hx. apply IH in Hrest. rewrite Hrest. reflexivity.
Qed.

(** With an identifier, the comprehension of lines 74-76 keeps the files
    whose name starts with it, in listing order, each joined to the
    directory; it never raises. *)
Lemma references_file_paths_filter (W : World) (dir u : string)
    (files : list string) :
  references_file_paths W dir (Some u) files
    = inr (path_join W dir <$> List.filter (String.prefix u) files).
Proof.
  induction files as [| file rest IH]; [reflexivity |].
  cbn [references_file_paths List.filter startswith].
  unfold mbind, result_bind, mret, result_ret. rewrite IH.
  destruct (String.prefix u file); reflexivity.
Qed.

(** When [compute_components] returns for a reference with an identifier:
    every file of the directory whose name starts with the identifier was
    read, stripped and normalized; the aligner was called once, with these
    texts in listing order and the normalized hypothesis; and each
    component is [0.0] plus the float of the aligner's count. *)
Theorem compute_components_returns (W : World) (self : CpWER) (ref : Annotation)
    (hyp : pyval) (u : string) (c : gmap string spec_float) :
  _uri ref = Some u →
  compute_components W self ref hyp = inr c →
  ∃ asr files refs hyps cpwer,
    getitem hyp 1 = inr asr
    ∧ listdir W (reference_dir self) = inr files
    ∧ Forall2 (λ file text,
               ∃ content,
                 read_file W (path_join W (reference_dir self) file) = inr content
                 ∧ normalizer W (PyStr (strip W content)) = inr text)
        (List.filter (String.prefix u) files) refs
    ∧ normalize_hypothesis W asr = inr hyps
    ∧ cp_word_error_rate W refs hyps = inr cpwer
    ∧ c = components_dict
            (Float.add Float.zero (Float.of_Z (ErrorRate.length cpwer)))
            (Float.add Float.zero (Float.of_Z (ErrorRate.substitutions cpwer)))
            (Float.add Float.zero (Float.of_Z (ErrorRate.deletions cpwer)))
            (Float.add Float.zero (Float.of_Z (ErrorRate.insertions cpwer))).
Proof.
  intros Huri. unfold compute_components. rewrite Huri.
  unfold mbind at 1, result_bind at 1.
  destruct (getitem hyp 1) as [e | asr] eqn:Hasr; [discriminate |].
  unfold mbind at 1, result_bind at 1.
  destruct (listdir W _) as [e | files] eqn:Hfiles; [discriminate |].
  rewrite references_file_paths_filter.
  unfold mbind at 1 2, result_bind at 1 2.
  destruct (mapM _ _) as [e | refs] eqn:Hrefs; [discriminate |].
  unfold mbind at 1, result_bind at 1.
  destruct (normalize_hypothesis W asr) as [e | hyps] eqn:Hhyps; [discriminate |].
  unfold mbind at 1, result_bind at 1.
  destruct (cp_word_error_rate W refs hyps) as [e | cpwer] eqn:Hcp; [discriminate |].
  intros Hc. exists asr, files, refs, hyps, cpwer.
  do 2 (split; [first [reflexivity | assumption] |]). split.
  - apply mapM_inr, Forall2_fmap_l in Hrefs.
    eapply Forall2_impl; [exact Hrefs |].
    intros file text. cbn. unfold read_reference, mbind, result_bind.
    destruct (read_file W _) as [e | content]; [discriminate |]. eauto.
  - do 2 (split; [assumption |]).
    revert Hc. unfold components_of, float_add_int, float_of_int, mbind, result_bind.
    destruct (Float.of_Z (ErrorRate.length cpwer)); try discriminate;
      destruct (Float.of_Z (ErrorRate.substitutions cpwer)); try discriminate;
      destruct (Float.of_Z (ErrorRate.deletions cpwer)); try discriminate;
      destruct (Float.of_Z (ErrorRate.insertions cpwer)); try discriminate;
      by intros [= <-].
Qed.

Lemma compute_components_returns_witness :
  _uri (Toy.annotation "A") = Some "A"
  ∧ compute_components Toy.world (init "refs") (Toy.annotation "A")
      (Toy.triple (PyStr "x")) = inr (counts 10 1 0 0)
  ∧ ∃ asr files refs hyps cpwer,
      getitem (Toy.triple (PyStr "x")) 1 = inr asr
      ∧ listdir Toy.world (reference_dir (init "refs")) = inr files
      ∧ Forall2 (λ file text,
                 ∃ content,
                   read_file Toy.world
                     (path_join Toy.world (reference_dir (init "refs")) file)
                     = inr content
                   ∧ normalizer Toy.world (PyStr (strip Toy.world content)) = inr text)
          (List.filter (String.prefix "A") files) refs
      ∧ normalize_hypothesis Toy.world asr = inr hyps
      ∧ cp_word_error_rate Toy.world refs hyps = inr cpwer
      ∧ counts 10 1 0 0
        = components_dict
            (Float.add Float.zero (Float.of_Z (ErrorRate.length cpwer)))
            (Float.add Float.zero (Float.of_Z (ErrorRate.substitutions cpwer)))
            (Float.add Float.zero (Float.of_Z (ErrorRate.deletions cpwer)))
            (Float.add Float.zero (Float.of_Z (ErrorRate.insertions cpwer))).
Proof.
  split; [reflexivity |]. split; [reflexivity |].
  apply (compute_components_returns Toy.world (init "refs") (Toy.annotation "A")
           (Toy.triple (PyStr "x")) "A" (counts 10 1 0 0)); reflexivity.
Defined.

(** A reference without identifier ([_uri] is [None]) makes
    [compute_components] raise [TypeError] as soon as the directory holds a
    file: [file.startswith(None)] is evaluated for the first file, before
    any file is opened. An empty directory raises nothing. *)
Theorem compute_components_without_uri (W : World) (self : CpWER)
    (ref : Annotation) (hyp asr : pyval) (files : list string) :
  _uri ref = None →
  getitem hyp 1 = inr asr →
  listdir W (reference_dir self) = inr files →
  compute_components W self ref hyp
    = match files with
      | [] => hyps ← normalize_hypothesis W asr;
              cpwer ← cp_word_error_rate W [] hyps;
              components_of cpwer
      | _ :: _ => inl TypeError
      end.
Proof.
  intros Huri Hasr Hfiles. unfold compute_components.
  rewrite Hasr, Huri, Hfiles. destruct files; reflexivity.
Qed.

Lemma compute_components_without_uri_witness :
  compute_components Toy.world (init "refs") {| _uri := None |} (Toy.triple (PyStr "x"))
    = inl TypeError.
Proof.
  apply (compute_components_without_uri Toy.world (init "refs") {| _uri := None |}
           (Toy.triple (PyStr "x")) (PyStr "x")
           ["A.words"; "B.words"; "C.words"; "D.words"]); reflexivity.
Defined.

Lemma float_add_int_finite (n : Z) (v : spec_float) (b : bool) :
  float_add_int Float.zero n = inr v → v ≠ S754_infinity b.
Proof.
  unfold float_add_int, float_of_int, mbind, result_bind.
  destruct (Float.of_Z n) as [[] | | | ]; try discriminate;
    intros [= <-]; discriminate.
Qed.

(** The mapping [compute_components] returns has exactly the four declared
    fields, and no value in it is an infinity or [-0.0]: a count too large
    for a float raises [OverflowError] instead. *)
Theorem compute_components_fields (W : World) (self : CpWER) (ref : Annotation)
    (hyp : pyval) (c : gmap string spec_float) :
  compute_components W self ref hyp = inr c →
  dom c = list_to_set metric_components
  ∧ ∀ name v, c !! name = Some v →
      v ≠ S754_infinity false ∧ v ≠ S754_infinity true ∧ v ≠ S754_zero true.
Proof.
  unfold compute_components, mbind, result_bind.
  destruct (getitem hyp 1) as [e | asr]; [discriminate |].
  destruct (listdir W _) as [e | files]; [discriminate |].
  destruct (references_file_paths _ _ _ _) as [e | paths]; [discriminate |].
  destruct (mapM _ _) as [e | refs]; [discriminate |].
  destruct (normalize_hypothesis _ _) as [e | hyps]; [discriminate |].
  destruct (cp_word_error_rate _ _ _) as [e | cpwer]; [discriminate |].
  unfold components_of, mbind, result_bind.
  destruct (float_add_int _ (ErrorRate.length cpwer)) as [e | l] eqn:Hl; [discriminate |].
  destruct (float_add_int _ (ErrorRate.substitutions cpwer)) as [e | s] eqn:Hs; [discriminate |].
  destruct (float_add_int _ (ErrorRate.deletions cpwer)) as [e | d] eqn:Hd; [discriminate |].
  destruct (float_add_int _ (ErrorRate.insertions cpwer)) as [e | i] eqn:Hi; [discriminate |].
  intros [= <-]. split.
  - unfold components_dict, metric_components. rewrite !dom_insert_L, dom_empty_L.
    set_solver.
  - assert (Hgood : ∀ n v, float_add_int Float.zero n = inr v →
              v ≠ S754_infinity false ∧ v ≠ S754_infinity true ∧ v ≠ S754_zero true).
    { intros n v Hv. repeat split; try (eapply float_add_int_finite; eassumption).
      intros ->. apply float_add_int_zero in Hv. discriminate. }
    intros name v. unfold components_dict.
    rewrite !lookup_insert. repeat case_decide; intros [= <-]; eauto.
Qed.

Lemma compute_components_fields_witness :
  dom (counts 10 1 0 0) = list_to_set metric_components
  ∧ ∀ name v, counts 10 1 0 0 !! name = Some v →
      v ≠ S754_infinity false ∧ v ≠ S754_infinity true ∧ v ≠ S754_zero true.
Proof.
  apply (compute_components_fields Toy.world (init "refs") (Toy.annotation "A")
           (Toy.triple (PyStr "x")) (counts 10 1 0 0)).
  reflexivity.
Defined.

(** ** What a call does to the state, whatever its outcome *)

Lemma accumulate_frame (names : list string) (c : gmap string spec_float) (h : heap) :
  reference_dir (obj (accumulate names c h).2) = reference_dir (obj h)
  ∧ results_ (obj (accumulate names c h).2) = results_ (obj h)
  ∧ warned (accumulate names c h).2 = warned h
  ∧ dom (accumulated_ (obj (accumulate names c h).2)) = dom (accumulated_ (obj h)).
Proof.
  revert h. induction names as [| name rest IH]; intros h; [done |].
  cbn [accumulate].
  unfold mbind, M_bind, accumulated_get, accumulated_set, lift, dict_getitem.
  destruct (accumulated_ (obj h) !! name) as [a |] eqn:Ha; [| done].
  destruct (c !! name) as [x |]; [| done].
  cbn [mret result_ret].
  destruct (IH (with_totals h (<[name := Float.add a x]> (accumulated_ (obj h)))))
    as (Hdir & Hres & Hwarn & Hdom).
  rewrite Hdir, Hres, Hwarn, Hdom. cbn [with_totals obj accumulated_].
  repeat split. rewrite dom_insert_L.
  apply subseteq_union_1_L, singleton_subseteq_l, (elem_of_dom_2 _ _ _ Ha).
Qed.

Section CallFrame.

Variable W : World.
Variables (ref : Annotation) (hyp : pyval) (flag : bool) (override : option string).

Lemma call_frame (h : heap) :
  reference_dir (obj (__call__ W ref hyp flag override h).2) = reference_dir (obj h)
  ∧ (results_ (obj (__call__ W ref hyp flag override h).2) = results_ (obj h)
     ∨ ∃ entry, results_ (obj (__call__ W ref hyp flag override h).2)
                = results_ (obj h) ++ [entry])
  ∧ dom (accumulated_ (obj (__call__ W ref hyp flag override h).2))
    = dom (accumulated_ (obj h))
  ∧ warned h `prefix_of` warned (__call__ W ref hyp flag override h).2.
Proof.
  unfold __call__, mbind, M_bind, get_self, lift.
  destruct (compute_components W (obj h) ref hyp) as [e | c]; [by auto |].
  pose proof (compute_metric_frame c h) as [Hobj Hwarn].
  assert (Hpre : warned h `prefix_of` warned (compute_metric c h).2).
  { destruct Hwarn as [-> | ->]; [done | by apply prefix_app_r]. }
  destruct (compute_metric c h) as [[e | v] h1]; cbn [snd] in Hobj, Hpre |- *.
  { rewrite Hobj. by auto. }
  unfold results_append.
  pose proof (accumulate_frame components_ (<[metric_name_ := v]> c)
                (appended h1 (_uri ref, <[metric_name_ := v]> c)))
    as (Hdir & Hres & Hw & Hdom).
  cbn [appended obj accumulated_ reference_dir results_ warned] in Hdir, Hres, Hw, Hdom.
  rewrite Hobj in Hdir, Hres, Hdom.
  assert (Hfinal : ∀ r : result retval * heap,
            r.2 = (accumulate components_ (<[metric_name_ := v]> c)
                     (appended h1 (_uri ref, <[metric_name_ := v]> c))).2 →
            reference_dir (obj r.2) = reference_dir (obj h)
            ∧ (results_ (obj r.2) = results_ (obj h)
               ∨ ∃ entry, results_ (obj r.2) = results_ (obj h) ++ [entry])
            ∧ dom (accumulated_ (obj r.2)) = dom (accumulated_ (obj h))
            ∧ warned h `prefix_of` warned r.2).
  { intros r ->. rewrite Hdir, Hres, Hdom, Hw. eauto 6. }
  apply Hfinal.
  destruct (accumulate _ _ _) as [[e | []] h2]; [reflexivity |].
  destruct flag; [reflexivity |].
  unfold dict_getitem. rewrite lookup_insert_eq. reflexivity.
Qed.

(** A call never rewrites the history: the entries logged before it are
    still there, in place, after it, whether it returns or raises and
    whatever the state of the object; at most one entry is added, and the
    reference directory stays. *)
Theorem call_keeps_history (h : heap) :
  reference_dir (obj (__call__ W ref hyp flag override h).2) = reference_dir (obj h)
  ∧ (results_ (obj (__call__ W ref hyp flag override h).2) = results_ (obj h)
     ∨ ∃ entry, results_ (obj (__call__ W ref hyp flag override h).2)
                = results_ (obj h) ++ [entry]).
Proof. destruct (call_frame h) as (Hdir & Hres & _). auto. Qed.

(** A call never adds or removes a key of the running totals (so the
    metric value is never accumulated), and never retracts a warning,
    whether it returns or raises. *)
Theorem call_keeps_total_keys (h : heap) :
  dom (accumulated_ (obj (__call__ W ref hyp flag override h).2))
    = dom (accumulated_ (obj h))
  ∧ warned h `prefix_of` warned (__call__ W ref hyp flag override h).2.
Proof. destruct (call_frame h) as (_ & _ & Hdom & Hwarn). auto. Qed.

(** The [detailed] flag only selects what is returned: both settings leave
    the same state and raise or return alike. *)
Theorem call_detailed_same_state (h : heap) :
  (__call__ W ref hyp true override h).2 = (__call__ W ref hyp false override h).2
  ∧ succeeded (__call__ W ref hyp true override h).1
    = succeeded (__call__ W ref hyp false override h).1.
Proof.
  unfold __call__, mbind, M_bind, get_self, lift.
  destruct (compute_components W (obj h) ref hyp) as [e | c]; [done |].
  destruct (compute_metric c h) as [[e | v] h1]; [done |].
  unfold results_append.
  destruct (accumulate _ _ _) as [[e | []] h2]; [done |].
  unfold dict_getitem. rewrite lookup_insert_eq. done.
Qed.

End CallFrame.

(** ** What a call returns *)

(** A call that returns has logged, as the last history entry, the
    reference's identifier with a mapping that holds the four components
    as computed and the metric value under "CpWER". With [detailed] it
    returns that mapping, otherwise that value; and [compute_metric] on
    the logged mapping gives the logged value again. *)
Theorem call_result_logged (W : World) (ref : Annotation) (hyp : pyval)
    (flag : bool) (override : option string) (h h' : heap) (r : retval) :
  __call__ W ref hyp flag override h = (inr r, h') →
  ∃ c d v,
    compute_components W (obj h) ref hyp = inr c
    ∧ last (results_ (obj h')) = Some (_uri ref, d)
    ∧ r = (if flag then Detailed d else Value v)
    ∧ d !! metric_name = Some v
    ∧ (∀ name, name ∈ metric_components → d !! name = c !! name)
    ∧ dom d = {[metric_name]} ∪ list_to_set metric_components
    ∧ ∀ k, (compute_metric d k).1 = inr v.
Proof.
  intros Hcall.
  destruct (call_returns _ _ _ _ _ _ _ _ Hcall)
    as (c & v & h1 & Hcc & Hcm & Hr & _ & Hres & _ & _).
  exists c, (<[metric_name_ := v]> c), v.
  assert (Hkeep : ∀ name, name ∈ metric_components →
            <[metric_name_ := v]> c !! name = c !! name).
  { intros name Hin. apply lookup_insert_ne. intros <-.
    unfold metric_name_, metric_name, metric_components in Hin.
    repeat (apply elem_of_cons in Hin as [Hin | Hin]; [discriminate |]).
    by apply elem_of_nil in Hin. }
  split; [assumption |]. split; [rewrite Hres; apply last_snoc |].
  split; [assumption |]. split; [apply lookup_insert_eq |].
  split; [assumption |]. split.
  - destruct (compute_components_inv _ _ _ _ _ Hcc) as (l & s & d & i & -> & _).
    unfold components_dict, metric_name_, metric_components.
    rewrite !dom_insert_L, dom_empty_L. set_solver.
  - intros k. rewrite (compute_metric_value_agree c _ h k Hkeep), Hcm. reflexivity.
Qed.

Lemma call_result_logged_witness :
  ∃ c d v,
    compute_components Toy.world (obj Toy.start)
      (reference Toy.sample_B) (hypothesis Toy.sample_B) = inr c
    ∧ last (results_ (obj (Toy.after Toy.sample_B Toy.start)))
      = Some (_uri (reference Toy.sample_B), d)
    ∧ Detailed (<[metric_name_ := Float.one]> (counts 1 1 0 0))
      = (if detailed Toy.sample_B then Detailed d else Value v)
    ∧ d !! metric_name = Some v
    ∧ (∀ name, name ∈ metric_components → d !! name = c !! name)
    ∧ dom d = {[metric_name]} ∪ list_to_set metric_components
    ∧ ∀ k, (compute_metric d k).1 = inr v.
Proof.
  apply (call_result_logged Toy.world (reference Toy.sample_B)
           (hypothesis Toy.sample_B) (detailed Toy.sample_B) (uri Toy.sample_B)
           Toy.start (Toy.after Toy.sample_B Toy.start)
           (Detailed (<[metric_name_ := Float.one]> (counts 1 1 0 0)))).
  compute_done.
Defined.

(** A sample whose length is zero while its error count is not is scored
    [1.0] with one warning, and is logged and accumulated like any other
    sample: the warning does not abort the call. *)
Theorem call_zero_length_sample (W : World) (ref : Annotation) (hyp : pyval)
    (flag : bool) (override : option string) (h : heap)
    (c : gmap string spec_float) (l s d i : spec_float) :
  wf (obj h) →
  compute_components W (obj h) ref hyp = inr c →
  c !! "length" = Some l →
  c !! "substitutions" = Some s →
  c !! "deletions" = Some d →
  c !! "insertions" = Some i →
  Float.eqb l Float.zero = true →
  Float.eqb (Float.add (Float.add s d) i) Float.zero = false →
  ∃ h',
    __call__ W ref hyp flag override h
      = (inr (if flag then Detailed (<[metric_name_ := Float.one]> c)
              else Value Float.one), h')
    ∧ warned h' = warned h ++ [zero_length_message]
    ∧ results_ (obj h') = results_ (obj h) ++ [(_uri ref, <[metric_name_ := Float.one]> c)]
    ∧ folded_into (accumulated_ (obj h)) c (accumulated_ (obj h')).
Proof.
  intros Hwf Hcc Hl Hs Hd Hi Hzero Hnum.
  destruct (call_total W ref hyp flag override _ _ Hwf Hcc) as (r & h' & Hcall).
  destruct (call_returns _ _ _ _ _ _ _ _ Hcall)
    as (c' & v & h1 & Hcc' & Hcm & Hr & _ & Hres & Hfold & Hwarn).
  rewrite Hcc in Hcc'. injection Hcc' as <-.
  rewrite (compute_metric_unfold _ _ _ _ _ Hl Hs Hd Hi) in Hcm. cbn zeta in Hcm.
  rewrite Hzero, Hnum in Hcm. injection Hcm as <- <-.
  exists h'. subst r.
  split; [assumption |]. split; [exact Hwarn |]. split; assumption.
Qed.

Lemma call_zero_length_sample_witness :
  ∃ h',
    __call__ Toy.world (Toy.annotation "C") (Toy.triple (PyStr "x")) false None Toy.start
      = (inr (Value Float.one), h')
    ∧ warned h' = warned Toy.start ++ [zero_length_message]
    ∧ results_ (obj h')
      = results_ (obj Toy.start)
        ++ [(_uri (Toy.annotation "C"), <[metric_name_ := Float.one]> (counts 0 1 0 0))]
    ∧ folded_into (accumulated_ (obj Toy.start)) (counts 0 1 0 0) (accumulated_ (obj h')).
Proof.
  apply (call_zero_length_sample Toy.world (Toy.annotation "C")
           (Toy.triple (PyStr "x")) false None Toy.start (counts 0 1 0 0)
           (Float.of_Z 0) (Float.of_Z 1) (Float.of_Z 0) (Float.of_Z 0));
    try reflexivity.
  apply reset_wf.
Defined.

(** ** Totals and history over a run *)

Lemma history_total_snoc (name : string)
    (entries : list (option string * gmap string spec_float))
    (entry : option string * gmap string spec_float) (a x : spec_float) :
  history_total name entries = Some a →
  entry.2 !! name = Some x →
  history_total name (entries ++ [entry]) = Some (Float.add a x).
Proof.
  intros Ha Hx. unfold history_total in *. rewrite foldl_app. cbn [foldl].
  rewrite Ha. cbn. rewrite Hx. reflexivity.
Qed.

Lemma consistent_wf (self : CpWER) : consistent self → wf self.
Proof. intros Hc name Hin. destruct (Hc name Hin) as (a & -> & _). eauto. Qed.

Lemma call_consistent (W : World) (x : sample) (h h' : heap) (r : result retval) :
  consistent (obj h) →
  __call__ W (reference x) (hypothesis x) (detailed x) (uri x) h = (r, h') →
  consistent (obj h').
Proof.
  intros Hc Hcall. destruct r as [e | r].
  - destruct (compute_components W (obj h) (reference x) (hypothesis x))
      as [e' | c] eqn:Hcc.
    + rewrite (call_raises _ _ _ _ _ _ _ Hcc) in Hcall. by injection Hcall as _ <-.
    + destruct (call_total W (reference x) (hypothesis x) (detailed x) (uri x)
                  _ _ (consistent_wf _ Hc) Hcc) as (r & h'' & Hok).
      congruence.
  - destruct (call_returns _ _ _ _ _ _ _ _ Hcall)
      as (c & v & h1 & _ & _ & _ & _ & Hres & [Hfold _] & _).
    intros name Hin.
    destruct (Hfold name Hin) as (a & y & Ha & Hy & Hsum).
    destruct (Hc name Hin) as (a' & Ha' & Htotal).
    rewrite Ha in Ha'. injection Ha' as <-.
    exists (Float.add a y). split; [assumption |].
    rewrite Hres. apply history_total_snoc; [assumption |].
    cbn [snd]. rewrite lookup_insert_ne; [assumption |]. intros <-.
    unfold components_, metric_name_, metric_name, metric_components in Hin.
    repeat (apply elem_of_cons in Hin as [Hin | Hin]; [discriminate |]).
    by apply elem_of_nil in Hin.
Qed.

(** Over a run of calls, returning or raising, the running totals stay the
    float sums of the component values logged in the history, added from
    [0.0] in history order. *)
Theorem totals_follow_history (W : World) (samples : list sample) (h : heap) :
  consistent (obj h) →
  consistent (obj (evaluate W samples h).2).
Proof.
  revert h. induction samples as [| x rest IH]; intros h Hc; [exact Hc |].
  cbn [evaluate].
  destruct (__call__ W (reference x) (hypothesis x) (detailed x) (uri x) h)
    as [r h1] eqn:Hcall.
  pose proof (IH h1 (call_consistent _ _ _ _ _ Hc Hcall)) as Hrest.
  destruct (evaluate W rest h1) as [rs h2]. exact Hrest.
Qed.

Lemma reset_consistent (self : CpWER) : consistent (reset self).
Proof.
  intros name Hin. exists Float.zero. split; [| reflexivity].
  unfold components_, metric_components in Hin.
  repeat (apply elem_of_cons in Hin as [-> | Hin]);
    [| | | | by apply elem_of_nil in Hin]; reflexivity.
Qed.

Lemma totals_follow_history_witness :
  let samples := [Toy.sample_A; Toy.sample_D; Toy.sample_short; Toy.sample_B] in
  consistent (obj Toy.start)
  ∧ consistent (obj (evaluate Toy.world samples Toy.start).2).
Proof.
  intros samples.
  assert (Hc : consistent (obj Toy.start)) by apply reset_consistent.
  split; [exact Hc |].
  exact (totals_follow_history Toy.world samples Toy.start Hc).
Defined.

(** A sample whose component computation raises can be left out of a run:
    the state after the run is the same without it. *)
Theorem failed_samples_leave_no_trace (W : World) (samples : list sample) (h : heap) :
  (evaluate W samples h).2
    = (evaluate W
         (List.filter
            (λ x, succeeded (compute_components W (obj h) (reference x) (hypothesis x)))
            samples) h).2.
Proof.
  revert h. induction samples as [| x rest IH]; intros h; [reflexivity |].
  cbn [evaluate List.filter].
  destruct (compute_components W (obj h) (reference x) (hypothesis x))
    as [e | c] eqn:Hcc; cbn [succeeded].
  - rewrite (call_raises _ _ _ _ _ _ _ Hcc).
    specialize (IH h). destruct (evaluate W rest h) as [rs h2]. exact IH.
  - cbn [evaluate].
    destruct (__call__ W (reference x) (hypothesis x) (detailed x) (uri x) h)
      as [r h1] eqn:Hcall.
    pose proof (call_frame W (reference x) (hypothesis x) (detailed x) (uri x) h)
      as [Hdir _].
    rewrite Hcall in Hdir. cbn [snd] in Hdir.
    specialize (IH h1).
    assert (Hfilter :
      List.filter (λ y, succeeded (compute_components W (obj h1) (reference y) (hypothesis y))) rest
      = List.filter (λ y, succeeded (compute_components W (obj h) (reference y) (hypothesis y))) rest).
    { apply List.filter_ext. intros y.
      rewrite (compute_components_dir W (obj h) (obj h1) _ _ Hdir). reflexivity. }
    rewrite Hfilter in IH.
    destruct (evaluate W rest h1) as [rs h2].
    destruct (evaluate W (List.filter _ rest) h1) as [rs' h2']. exact IH.
Qed.

(** ** The order of two samples *)

Lemma Float_add_comm (x y : spec_float) : Float.add x y = Float.add y x.
Proof.
  unfold Float.add, SFadd.
  destruct x as [[] | [] | | sx mx ex], y as [[] | [] | | sy my ey];
    try reflexivity.
  rewrite (Z.min_comm ey ex), Z.add_comm. reflexivity.
Qed.

(** From zero totals, a call that returns leaves each total equal to the
    sample's value. *)
Lemma call_from_zero (W : World) (x : sample) (h h' : heap) (r : retval) :
  (∀ name, name ∈ metric_components → accumulated_ (obj h) !! name = Some Float.zero) →
  __call__ W (reference x) (hypothesis x) (detailed x) (uri x) h = (inr r, h') →
  ∃ c, compute_components W (obj h) (reference x) (hypothesis x) = inr c
       ∧ reference_dir (obj h') = reference_dir (obj h)
       ∧ ∀ name, name ∈ metric_components →
           ∃ v, c !! name = Some v ∧ accumulated_ (obj h') !! name = Some v.
Proof.
  intros Hzero Hcall.
  destruct (call_returns _ _ _ _ _ _ _ _ Hcall)
    as (c & v & h1 & Hcc & _ & _ & Hdir & _ & [Hfold _] & _).
  exists c. do 2 (split; [assumption |]). intros name Hin.
  destruct (Hfold name Hin) as (a & y & Ha & Hy & Hsum).
  rewrite (Hzero name Hin) in Ha. injection Ha as <-.
  exists y. split; [assumption |]. rewrite Hsum. f_equal.
  destruct (compute_components_inv _ _ _ _ _ Hcc)
    as (l & s & d & i & -> & Hl & Hs & Hd & Hi).
  unfold metric_components in Hin.
  repeat (apply elem_of_cons in Hin as [-> | Hin]);
    [| | | | by apply elem_of_nil in Hin];
    vm_compute in Hy; injection Hy as <-; assumption.
Qed.

(** On an object whose four totals are zero, two samples give the same
    totals in either order: float addition is commutative (with a third
    sample the order can matter, float addition is not associative). *)
Theorem two_samples_either_order (W : World) (x1 x2 : sample)
    (h h1 h2 k1 k2 : heap) (r1 r2 q1 q2 : retval) :
  (∀ name, name ∈ metric_components → accumulated_ (obj h) !! name = Some Float.zero) →
  __call__ W (reference x1) (hypothesis x1) (detailed x1) (uri x1) h = (inr r1, h1) →
  __call__ W (reference x2) (hypothesis x2) (detailed x2) (uri x2) h1 = (inr r2, h2) →
  __call__ W (reference x2) (hypothesis x2) (detailed x2) (uri x2) h = (inr q1, k1) →
  __call__ W (reference x1) (hypothesis x1) (detailed x1) (uri x1) k1 = (inr q2, k2) →
  ∀ name, name ∈ metric_components →
    accumulated_ (obj k2) !! name = accumulated_ (obj h2) !! name.
Proof.
  intros Hzero Hx1 Hx2 Hy1 Hy2 name Hin.
  destruct (call_from_zero _ _ _ _ _ Hzero Hx1) as (c1 & Hc1 & Hd1 & Hv1).
  destruct (call_from_zero _ _ _ _ _ Hzero Hy1) as (c2 & Hc2 & Hd2 & Hv2).
  destruct (call_returns _ _ _ _ _ _ _ _ Hx2)
    as (c2' & ? & ? & Hc2' & _ & _ & _ & _ & [Hf2 _] & _).
  destruct (call_returns _ _ _ _ _ _ _ _ Hy2)
    as (c1' & ? & ? & Hc1' & _ & _ & _ & _ & [Hf1 _] & _).
  rewrite (compute_components_dir W (obj h) _ _ _ Hd1), Hc2 in Hc2'.
  rewrite (compute_components_dir W (obj h) _ _ _ Hd2), Hc1 in Hc1'.
  injection Hc2' as <-. injection Hc1' as <-.
  destruct (Hv1 name Hin) as (v1 & Hv1c & Hv1a).
  destruct (Hv2 name Hin) as (v2 & Hv2c & Hv2a).
  destruct (Hf2 name Hin) as (a & y & Ha & Hy & ->).
  destruct (Hf1 name Hin) as (b & z & Hb & Hz & ->).
  rewrite Hv1a in Ha. injection Ha as <-.
  rewrite Hv2a in Hb. injection Hb as <-.
  rewrite Hv2c in Hy. injection Hy as <-.
  rewrite Hv1c in Hz. injection Hz as <-.
  f_equal. apply Float_add_comm.
Qed.

Lemma two_samples_either_order_witness :
  let ab := Toy.after Toy.sample_B (Toy.after Toy.sample_A Toy.start) in
  let ba := Toy.after Toy.sample_A (Toy.after Toy.sample_B Toy.start) in
  accumulated_ (obj ba) !! "length" = accumulated_ (obj ab) !! "length"
  ∧ accumulated_ (obj ba) !! "substitutions" = accumulated_ (obj ab) !! "substitutions"
  ∧ accumulated_ (obj ba) !! "deletions" = accumulated_ (obj ab) !! "deletions"
  ∧ accumulated_ (obj ba) !! "insertions" = accumulated_ (obj ab) !! "insertions".
Proof.
  intros ab ba.
  assert (Hzero : ∀ name, name ∈ metric_components →
            accumulated_ (obj Toy.start) !! name = Some Float.zero).
  { intros name Hin. unfold metric_components in Hin.
    repeat (apply elem_of_cons in Hin as [-> | Hin]);
      [| | | | by apply elem_of_nil in Hin]; reflexivity. }
  pose proof (two_samples_either_order Toy.world Toy.sample_A Toy.sample_B Toy.start
                (Toy.after Toy.sample_A Toy.start) ab
                (Toy.after Toy.sample_B Toy.start) ba
                (Value (Float.div (Float.of_Z 1) (Float.of_Z 10)))
                (Detailed (<[metric_name_ := Float.one]> (counts 1 1 0 0)))
                (Detailed (<[metric_name_ := Float.one]> (counts 1 1 0 0)))
                (Value (Float.div (Float.of_Z 1) (Float.of_Z 10)))
                Hzero) as Hsame.
  assert (Hall : ∀ name, name ∈ metric_components →
            accumulated_ (obj ba) !! name = accumulated_ (obj ab) !! name)
    by (apply Hsame; compute_done).
  repeat split; apply Hall; unfold metric_components;
    repeat first [apply list_elem_of_here | apply list_elem_of_further].
Defined.

Example Float_add_not_assoc :
  let big := Float.of_Z 9007199254740992 in
  let one := Float.of_Z 1 in
  Float.add (Float.add big one) one ≠ Float.add big (Float.add one one).
Proof. vm_compute. discriminate. Qed.

(** ** The hypothesis texts *)


(** ** A sample without errors *)

(** With substitutions, deletions and insertions all [0.0] and a length
    that is zero or positive, infinite included, [compute_metric] returns
    exactly [0.0] and emits nothing. *)
Theorem compute_metric_no_errors (components : gmap string spec_float)
    (l : spec_float) (h : heap) :
  components !! "length" = Some l →
  components !! "substitutions" = Some Float.zero →
  components !! "deletions" = Some Float.zero →
  components !! "insertions" = Some Float.zero →
  SFleb Float.zero l = true →
  compute_metric components h = (inr Float.zero, h).
Proof.
  intros Hl Hs Hd Hi Hle.
  rewrite (compute_metric_unfold _ _ _ _ _ Hl Hs Hd Hi).
  destruct l as [[] | [] | | [] m e]; try discriminate; reflexivity.
Qed.

Lemma compute_metric_no_errors_witness :
  compute_metric (counts 7 0 0 0) Toy.start = (inr Float.zero, Toy.start).
Proof.
  apply (compute_metric_no_errors (counts 7 0 0 0) (Float.of_Z 7)); reflexivity.
Defined.
